(** * TDB2TT: barycentric dynamical time to terrestrial time

    A shallow embedding of [Coordinate Systems/Time/TDB2TT.c], the MEX
    gateway [mexFunction] and its helper [getDeltaTFromEOP].

    The C code is a thin wrapper: every transformation of a date is done by
    a routine of the IAU SOFA library, the Earth-orientation data come from
    the MATLAB function [getEOP], and argument validation is done by the
    helpers of [MexValidation.h].  None of these is part of the translation
    unit, so they are taken as parameters (the record [Externals]); the
    arithmetic of C's [double] and the three libm functions the code calls
    are the operations of the class [Double], with an exact instance over
    the real numbers.

    Effects are explicit: a run is a function from a [state] (the MATLAB
    heap holding the caller's arrays, the output slots [plhs], and a trace
    of warnings and external calls) to an [outcome] and a final state.
    [mexErrMsgTxt] does not return to its caller; it is the outcome
    [Fatal]. *)

From Stdlib Require Import ZArith String List Reals Lra Lia.
From stdpp Require Import base option list gmap.

Local Open Scope string_scope.
Local Open Scope list_scope.
Local Open Scope Z_scope.

(** ** Arithmetic of [double] *)

(** The operations on [double] that the translation unit uses: the four
    arithmetic operators, conversion of an [int] literal, and [floor],
    [sqrt] and [atan2] of [math.h]. *)
Class Double (D : Type) := {
  of_int : Z -> D;
  dadd : D -> D -> D;
  dsub : D -> D -> D;
  dmul : D -> D -> D;
  ddiv : D -> D -> D;
  floor : D -> D;
  sqrt : D -> D;
  atan2 : D -> D -> D
}.

Declare Scope double_scope.
Delimit Scope double_scope with D.
Infix "+" := dadd : double_scope.
Infix "-" := dsub : double_scope.
Infix "*" := dmul : double_scope.
Infix "/" := ddiv : double_scope.

(** ** MATLAB arrays, the heap, and runs *)

Inductive mxClassID :=
| mxUNKNOWN_CLASS | mxCELL_CLASS | mxSTRUCT_CLASS | mxLOGICAL_CLASS
| mxCHAR_CLASS | mxDOUBLE_CLASS | mxSINGLE_CLASS | mxINT32_CLASS.

(** Addresses of [mxArray] objects: [prhs] is an array of pointers. *)
Definition addr := nat.

(** The externally visible calls, recorded in the trace. *)
Inductive callee :=
| IauTtut1 | IauDtdb | IauTdbtt | IauTttai | IauTaiutc | GetEOP.

Inductive outcome (A : Type) :=
| Ok (a : A)
| Fatal (msg : string)     (* mexErrMsgTxt: control returns to MATLAB *)
| Undefined.               (* an access outside an object *)
Arguments Ok {A} a.
Arguments Fatal {A} msg.
Arguments Undefined {A}.

Section Model.
Context {D : Type} `{Double D}.

(** An [mxArray] that holds doubles: class, complexity flag, the two
    dimensions, and the data buffer in column-major order. *)
Record mxArray := MxArray {
  mxGetClassID : mxClassID;
  mxIsComplex : bool;
  mxGetM : Z;
  mxGetN : Z;
  mxGetData : list D
}.

Definition mxIsEmpty (a : mxArray) : bool :=
  (mxGetM a =? 0) || (mxGetN a =? 0).

(** The array [a] with the contents of its data buffer replaced. *)
Definition with_data (a : mxArray) (data : list D) : mxArray :=
  MxArray (mxGetClassID a) (mxIsComplex a) (mxGetM a) (mxGetN a) data.

Inductive event :=
| Warn (msg : string)                   (* mexWarnMsgTxt *)
| Call (f : callee) (args : list D).    (* a call that leaves the file *)

Record state := State {
  heap : gmap addr mxArray;     (* the caller's arrays *)
  plhs : gmap nat mxArray;      (* the output slots *)
  trace : list event            (* oldest event first *)
}.

Definition M (A : Type) : Type := state -> outcome A * state.

Definition ret {A} (a : A) : M A := fun s => (Ok a, s).

Definition bind {A B} (m : M A) (k : A -> M B) : M B :=
  fun s =>
    match m s with
    | (Ok a, s') => k a s'
    | (Fatal msg, s') => (Fatal msg, s')
    | (Undefined, s') => (Undefined, s')
    end.

Definition mexErrMsgTxt {A} (msg : string) : M A := fun s => (Fatal msg, s).

Definition undefined {A} : M A := fun s => (Undefined, s).

Definition emit (e : event) : M unit :=
  fun s => (Ok tt, State (heap s) (plhs s) (trace s ++ [e])).

Definition mexWarnMsgTxt (msg : string) : M unit := emit (Warn msg).

(** The state [s] with the events [evs] appended to its trace. *)
Definition add_events (s : state) (evs : list event) : state :=
  State (heap s) (plhs s) (trace s ++ evs).

End Model.

Arguments mxArray D : clear implicits.
Arguments with_data {D} a data.
Arguments event D : clear implicits.
Arguments state D : clear implicits.
Arguments M D A : clear implicits.
Arguments add_events {D} s evs.

Declare Scope run_scope.
Delimit Scope run_scope with run.
Notation "x <- c ;; k" := (bind c (fun x => k))
  (at level 100, c at next level, right associativity) : run_scope.
Notation "c ;; k" := (bind c (fun _ => k))
  (at level 100, right associativity) : run_scope.

(** ** External collaborators *)

(** What the translation unit calls but does not define.  The SOFA routines
    return their status together with the two values they store through
    their output pointers.  [getEOP] is the MATLAB function reached through
    [mexCallMATLAB] with two inputs and four outputs; it either raises an
    error or returns its four arrays.  The last three fields are the helpers
    declared in [MexValidation.h]: [getDoubleFromMatlab] yields the scalar
    or the message it aborts with, [checkRealDoubleArray] yields the message
    it aborts with, if any, and [doubleMat2Matlab] builds a new array from a
    C buffer and its two dimensions. *)
Record Externals (D : Type) := {
  iauTtut1 : D -> D -> D -> Z * (D * D);
  iauDtdb : D -> D -> D -> D -> D -> D -> D;
  iauTdbtt : D -> D -> D -> Z * (D * D);
  iauTttai : D -> D -> Z * (D * D);
  iauTaiutc : D -> D -> Z * (D * D);
  getEOP : mxArray D -> mxArray D ->
           string + (mxArray D * mxArray D * mxArray D * mxArray D);
  scalarOf : mxArray D -> string + D;
  realDoubleArrayError : mxArray D -> option string;
  doubleMat2Matlab : list D -> Z -> Z -> mxArray D
}.
Arguments iauTtut1 {D} _ _ _ _.
Arguments iauDtdb {D} _ _ _ _ _ _ _.
Arguments iauTdbtt {D} _ _ _ _.
Arguments iauTttai {D} _ _ _.
Arguments iauTaiutc {D} _ _ _.
Arguments getEOP {D} _ _ _.
Arguments scalarOf {D} _ _.
Arguments realDoubleArrayError {D} _ _.
Arguments doubleMat2Matlab {D} _ _ _ _.

(** The same collaborators with another Earth-orientation source. *)
Definition with_getEOP {D} (E : Externals D)
    (g : mxArray D -> mxArray D ->
         string + (mxArray D * mxArray D * mxArray D * mxArray D))
    : Externals D :=
  {| iauTtut1 := iauTtut1 E; iauDtdb := iauDtdb E; iauTdbtt := iauTdbtt E;
     iauTttai := iauTttai E; iauTaiutc := iauTaiutc E; getEOP := g;
     scalarOf := scalarOf E; realDoubleArrayError := realDoubleArrayError E;
     doubleMat2Matlab := doubleMat2Matlab E |}.

(** ** The translation unit *)

Section Program.
Context {D : Type} `{Double D} (E : Externals D).
Local Open Scope run_scope.

(** [*prhs[i]]: the array an input pointer refers to. *)
Definition deref (prhs : list addr) (i : nat) : M D (mxArray D) :=
  fun s =>
    match prhs !! i with
    | Some p =>
        match heap s !! p with
        | Some a => (Ok a, s)
        | None => (Undefined, s)
        end
    | None => (Undefined, s)
    end.

(** [getDoubleFromMatlab(val)] aborts through [mexErrMsgTxt] when [val] is
    not a scalar it can read. *)
Definition getDoubleFromMatlab (val : mxArray D) : M D D :=
  match scalarOf E val with
  | inl msg => mexErrMsgTxt msg
  | inr d => ret d
  end.

Definition checkRealDoubleArray (val : mxArray D) : M D unit :=
  match realDoubleArrayError E val with
  | Some msg => mexErrMsgTxt msg
  | None => ret tt
  end.

(** [xyzClock[i]] and [xyzClock[i] = x], where [xyzClock] is the data
    pointer of the array at address [p]: the write goes to the caller's
    array. *)
Definition load (p : addr) (i : nat) : M D D :=
  fun s =>
    match heap s !! p with
    | Some a =>
        match mxGetData a !! i with
        | Some x => (Ok x, s)
        | None => (Undefined, s)
        end
    | None => (Undefined, s)
    end.

Definition store (p : addr) (i : nat) (x : D) : M D unit :=
  fun s =>
    match heap s !! p with
    | Some a =>
        if decide (i < length (mxGetData a))%nat then
          let a' := with_data a (<[i := x]> (mxGetData a)) in
          (Ok tt, State (<[p := a']> (heap s)) (plhs s) (trace s))
        else (Undefined, s)
    | None => (Undefined, s)
    end.

(** [plhs[i] = a]. *)
Definition set_plhs (i : nat) (a : mxArray D) : M D unit :=
  fun s => (Ok tt, State (heap s) (<[i := a]> (plhs s)) (trace s)).

(** A counted loop whose body updates the live local variables. *)
Fixpoint for_loop {A} (n : nat) (body : A -> M D A) (a : A) : M D A :=
  match n with
  | O => ret a
  | S k => a' <- body a ;; for_loop k body a'
  end.

(** [mexCallMATLAB(4,retVals,2,JulUTCMATLAB,"getEOP")]: an error raised by
    the called function ends the MEX call. *)
Definition mexCallMATLAB_getEOP (utc1 utc2 : D)
    : M D (mxArray D * mxArray D * mxArray D * mxArray D) :=
  emit (Call GetEOP [utc1; utc2]) ;;
  match getEOP E (doubleMat2Matlab E [utc1] 1 1)
                 (doubleMat2Matlab E [utc2] 1 1) with
  | inl msg => mexErrMsgTxt msg
  | inr retVals => ret retVals
  end.

(** [double getDeltaTFromEOP(double TT1,double TT2)], lines 164-209.  The
    temporary arrays it creates and destroys never leave the function and
    are kept as values. *)
Definition getDeltaTFromEOP (TT1 TT2 : D) : M D D :=
  emit (Call IauTttai [TT1; TT2]) ;;
  let '(retVal, (JulUTC0, JulUTC1)) := iauTttai E TT1 TT2 in
  (if retVal =? 0 then ret tt
   else mexErrMsgTxt "An error occurred computing TAI.") ;;
  emit (Call IauTaiutc [JulUTC0; JulUTC1]) ;;
  let '(retVal, (JulUTC0, JulUTC1)) := iauTaiutc E JulUTC0 JulUTC1 in
  (if retVal =? 1 then mexWarnMsgTxt "Dubious Date entered."
   else if retVal =? -1 then mexErrMsgTxt "Unacceptable date entered"
   else ret tt) ;;
  retVals <- mexCallMATLAB_getEOP JulUTC0 JulUTC1 ;;
  let '(_, _, _, retVals3) := retVals in
  deltaT <- getDoubleFromMatlab retVals3 ;;
  ret deltaT.

(** Lines 93-99 of [mexFunction]: the pair [(iterateDeltaT, deltaTTUT1)].
    [deltaTTUT1] keeps its initial value 0 when no offset is given. *)
Definition delta_argument (nrhs : Z) (prhs : list addr) : M D (bool * D) :=
  given <- (if nrhs >? 2
            then a <- deref prhs 2 ;; ret (negb (mxIsEmpty a))
            else ret false) ;;
  if given : bool
  then a <- deref prhs 2 ;;
       deltaTTUT1 <- getDoubleFromMatlab a ;;
       ret (false, deltaTTUT1)
  else ret (true, of_int 0).

(** Lines 101-121 of [mexFunction]: the triple [(u, v, elon)]. *)
Definition clock_location (nrhs : Z) (prhs : list addr) : M D (D * D * D) :=
  given <- (if nrhs >? 3
            then a <- deref prhs 3 ;; ret (negb (mxIsEmpty a))
            else ret false) ;;
  if given : bool
  then a <- deref prhs 3 ;;
       (if negb (mxGetM a =? 3) || negb (mxGetN a =? 1)
        then mexErrMsgTxt
               "The dimensionality of the clock location is incorrect."
        else ret tt) ;;
       checkRealDoubleArray a ;;
       match prhs !! 3%nat with
       | None => undefined
       | Some xyzClock =>
           x0 <- load xyzClock 0 ;; store xyzClock 0 (x0 / of_int 1000)%D ;;
           x1 <- load xyzClock 1 ;; store xyzClock 1 (x1 / of_int 1000)%D ;;
           x2 <- load xyzClock 2 ;; store xyzClock 2 (x2 / of_int 1000)%D ;;
           x0 <- load xyzClock 0 ;;
           x1 <- load xyzClock 1 ;;
           let u := sqrt (x0 * x0 + x1 * x1)%D in
           v <- load xyzClock 2 ;;
           y1 <- load xyzClock 1 ;;
           y0 <- load xyzClock 0 ;;
           let elon := atan2 y1 y0 in
           ret (u, v, elon)
       end
  else ret (of_int 0, of_int 0, of_int 0).

(** Lines 145-146: the fraction of a Julian day in UT1. *)
Definition UT1Frac (Jul1UT1 Jul2UT1 : D) : D :=
  let UT1Frac := ((Jul1UT1 - floor Jul1UT1) + (Jul2UT1 - floor Jul2UT1))%D in
  (UT1Frac - floor UT1Frac)%D.

(** The two messages of the loop that end in a line feed:
    ["Dubious year provided\n"] and
    ["An error occured during an intermediate conversion to TDB.\n"]. *)
Definition line_feed : string := String (Ascii.ascii_of_nat 10) EmptyString.

Definition dubious_year : string :=
  ("Dubious year provided" ++ line_feed)%string.

Definition intermediate_error : string :=
  ("An error occured during an intermediate conversion to TDB." ++ line_feed)%string.

(** Lines 125-155: the body of the loop.  The live variables are
    [(TT1, TT2, deltaTTUT1)]. *)
Definition iteration (iterateDeltaT : bool) (TDB1 TDB2 elon u v : D)
    (vars : D * D * D) : M D (D * D * D) :=
  let '(TT1, TT2, deltaTTUT1) := vars in
  deltaTTUT1 <- (if iterateDeltaT then getDeltaTFromEOP TT1 TT2
                 else ret deltaTTUT1) ;;
  emit (Call IauTtut1 [TT1; TT2; deltaTTUT1]) ;;
  let '(retVal, (Jul1UT1, Jul2UT1)) := iauTtut1 E TT1 TT2 deltaTTUT1 in
  (if retVal =? -1 then mexErrMsgTxt "Unacceptable date provided."
   else if retVal =? 1 then mexWarnMsgTxt dubious_year
   else ret tt) ;;
  let UT1Frac := UT1Frac Jul1UT1 Jul2UT1 in
  emit (Call IauDtdb [TDB1; TDB2; UT1Frac; elon; u; v]) ;;
  let deltaT := iauDtdb E TDB1 TDB2 UT1Frac elon u v in
  emit (Call IauTdbtt [TDB1; TDB2; deltaT]) ;;
  let '(retVal, (TT1, TT2)) := iauTdbtt E TDB1 TDB2 deltaT in
  if retVal =? 0 then ret (TT1, TT2, deltaTTUT1)
  else mexErrMsgTxt intermediate_error.

(** Lines 158-161 of [mexFunction]: the outputs. *)
Definition return_outputs (nlhs : Z) (TT1 TT2 : D) : M D unit :=
  set_plhs 0 (doubleMat2Matlab E [TT1] 1 1) ;;
  if nlhs >? 1 then set_plhs 1 (doubleMat2Matlab E [TT2] 1 1)
  else ret tt.

(** [void mexFunction(int nlhs, mxArray *plhs[], int nrhs,
    const mxArray *prhs[])], lines 69-162.  MATLAB passes in [nrhs] the
    number of pointers in [prhs]; the output slots are the [plhs] of the
    state. *)
Definition mexFunction (nlhs : Z) (prhs : list addr) : M D unit :=
  let nrhs := Z.of_nat (length prhs) in
  if (nrhs <? 2) || (nrhs >? 4) then mexErrMsgTxt "Wrong number of inputs."
  else if nlhs >? 2 then mexErrMsgTxt "Wrong number of outputs."
  else
    TDB1 <- (a <- deref prhs 0 ;; getDoubleFromMatlab a) ;;
    TDB2 <- (a <- deref prhs 1 ;; getDoubleFromMatlab a) ;;
    let TT1 := TDB1 in
    let TT2 := TDB2 in
    delta <- delta_argument nrhs prhs ;;
    let '(iterateDeltaT, deltaTTUT1) := delta in
    cyl <- clock_location nrhs prhs ;;
    let '(u, v, elon) := cyl in
    vars <- for_loop 2 (iteration iterateDeltaT TDB1 TDB2 elon u v)
              (TT1, TT2, deltaTTUT1) ;;
    let '(TT1, TT2, _) := vars in
    return_outputs nlhs TT1 TT2.

End Program.

(** ** Exact arithmetic *)

(** [atan2] of [math.h] over the reals: the angle of the point [(x, y)],
    in the interval from [-PI] to [PI]. *)
Definition Ratan2 (y x : R) : R :=
  if Rlt_dec 0 x then atan (y / x)
  else if Rlt_dec x 0 then
    if Rle_dec 0 y then atan (y / x) + PI else atan (y / x) - PI
  else if Rlt_dec 0 y then PI / 2
  else if Rlt_dec y 0 then - PI / 2
  else 0.

Definition Rfloor (x : R) : R := IZR (Zfloor x).

#[export] Instance R_Double : Double R := {|
  of_int := IZR;
  dadd := Rplus;
  dsub := Rminus;
  dmul := Rmult;
  ddiv := Rdiv;
  floor := Rfloor;
  sqrt := R_sqrt.sqrt;
  atan2 := Ratan2
|}.

(** ** Vocabulary of the statements

    What the properties below are stated with: the events a run may add to
    the trace, relations between the state before and after a run, and the
    values that the specification of the converter names (the offset of an
    iteration, the refined estimate, the state with the outputs written). *)

(** Calls made by the Earth-orientation lookup. *)
Definition lookup_call {D} (e : event D) : bool :=
  match e with
  | Call IauTttai _ | Call IauTaiutc _ | Call GetEOP _ => true
  | _ => false
  end.

Definition callee_eqb (f g : callee) : bool :=
  match f, g with
  | IauTtut1, IauTtut1 | IauDtdb, IauDtdb | IauTdbtt, IauTdbtt
  | IauTttai, IauTttai | IauTaiutc, IauTaiutc | GetEOP, GetEOP => true
  | _, _ => false
  end.

(** The number of calls of [f] among the events [evs]. *)
Fixpoint calls {D} (f : callee) (evs : list (event D)) : nat :=
  match evs with
  | [] => 0
  | Call g _ :: evs' => (if callee_eqb f g then 1 else 0) + calls f evs'
  | Warn _ :: evs' => calls f evs'
  end.

(** A relation [R] between the state before and after a run that is
    closed under sequencing; the kinds of state change it admits are
    separate classes, so that each lemma names the ones its code can
    perform. *)
Class Frame {D} (R : state D -> state D -> Prop) : Prop := {
  R_refl : forall s, R s s;
  R_trans : forall s1 s2 s3, R s1 s2 -> R s2 s3 -> R s1 s3
}.

(** [R] admits the events of the loop proper. *)
Class CoreEvents {D} (R : state D -> state D -> Prop) : Prop :=
  R_emit_core : forall e s, lookup_call e = false ->
    R s (State (heap s) (plhs s) (trace s ++ [e])).

(** [R] admits the calls of the Earth-orientation lookup. *)
Class LookupEvents {D} (R : state D -> state D -> Prop) : Prop :=
  R_emit_lookup : forall e s, lookup_call e = true ->
    R s (State (heap s) (plhs s) (trace s ++ [e])).

(** [R] admits writes to the caller's arrays. *)
Class HeapWrites {D} (R : state D -> state D -> Prop) : Prop :=
  R_heap : forall s h, R s (State h (plhs s) (trace s)).

(** [R] admits writes to the output slots. *)
Class OutputWrites {D} (R : state D -> state D -> Prop) : Prop :=
  R_plhs : forall s o, R s (State (heap s) o (trace s)).

Section Vocabulary.
Context {D : Type} `{Double D} (E : Externals D).

(** Every run of [m] relates the state it starts in to the state it ends
    in. *)
Definition keeps (R : state D -> state D -> Prop) {A} (m : M D A) : Prop :=
  forall s, R s (snd (m s)).

Definition same_heap (s s' : state D) : Prop := heap s' = heap s.

Definition same_plhs (s s' : state D) : Prop := plhs s' = plhs s.

(** Reading the arguments does not change the state. *)
Definition unchanged (s s' : state D) : Prop := s' = s.

(** The new events of a run, none of them a call of the lookup. *)
Definition no_lookup (s s' : state D) : Prop :=
  exists evs, trace s' = trace s ++ evs
              /\ Forall (fun e => lookup_call e = false) evs.

(** A run that either ends well or leaves the output slots alone. *)
Definition well_or_silent {A} (m : M D A) (s : state D) : Prop :=
  (exists a, fst (m s) = Ok a) \/ plhs (snd (m s)) = plhs s.

(** Runs that make no access to memory are defined. *)
Definition defined {A} (m : M D A) : Prop := forall s, fst (m s) <> Undefined.

(** Every pointer of [prhs] refers to an array that has as many elements
    as its dimensions say. *)
Definition well_formed (prhs : list addr) (s : state D) : Prop :=
  forall i p, prhs !! i = Some p ->
    exists a, heap s !! p = Some a
              /\ Z.of_nat (length (mxGetData a)) = mxGetM a * mxGetN a.

(** A call with four arguments that passes the validation of lines 75-108:
    two readable scalars, an offset that is empty or a readable scalar, and
    a 3-by-1 real array of doubles. *)
Record valid_call4 (nlhs : Z) (prhs : list addr) (s : state D)
    (xyzClock : addr) (a : mxArray D) : Prop := {
  v4_nlhs : nlhs <= 2;
  v4_prhs : exists p0 p1 p2, prhs = [p0; p1; p2; xyzClock];
  v4_TDB1 : exists p a0 x,
      prhs !! 0%nat = Some p /\ heap s !! p = Some a0 /\ scalarOf E a0 = inr x;
  v4_TDB2 : exists p a1 x,
      prhs !! 1%nat = Some p /\ heap s !! p = Some a1 /\ scalarOf E a1 = inr x;
  v4_delta : exists p a2,
      prhs !! 2%nat = Some p /\ heap s !! p = Some a2 /\
      (mxIsEmpty a2 = true \/ exists d, scalarOf E a2 = inr d);
  v4_clock : heap s !! xyzClock = Some a;
  v4_M : mxGetM a = 3;
  v4_N : mxGetN a = 1;
  v4_real : realDoubleArrayError E a = None
}.

(** The kilometre vector the block leaves in the caller's array. *)
Definition kilometres (x y z : D) : list D :=
  [(x / of_int 1000)%D; (y / of_int 1000)%D; (z / of_int 1000)%D].

(** The events of the two date conversions of the lookup. *)
Definition conversion_events (TT1 TT2 tai1 tai2 : D) : list (event D) :=
  [Call IauTttai [TT1; TT2]; Call IauTaiutc [tai1; tai2]].

(** The events of a lookup that reaches [getEOP]. *)
Definition lookup_events (TT1 TT2 tai1 tai2 : D) (status : Z) (utc1 utc2 : D)
    : list (event D) :=
  conversion_events TT1 TT2 tai1 tai2
  ++ (if status =? 1 then [Warn "Dubious Date entered."] else [])
  ++ [Call GetEOP [utc1; utc2]].

(** The events of a lookup at the TT date [(TT1, TT2)] that reaches
    [getEOP], and the offset it returns when it returns one. *)
Definition lookup_events_at (TT1 TT2 : D) : list (event D) :=
  let '(_, (tai1, tai2)) := iauTttai E TT1 TT2 in
  let '(status, (utc1, utc2)) := iauTaiutc E tai1 tai2 in
  lookup_events TT1 TT2 tai1 tai2 status utc1 utc2.

Definition looked_up (TT1 TT2 : D) : option D :=
  let '(status1, (tai1, tai2)) := iauTttai E TT1 TT2 in
  let '(status2, (utc1, utc2)) := iauTaiutc E tai1 tai2 in
  if (status1 =? 0) && negb (status2 =? -1) then
    match getEOP E (doubleMat2Matlab E [utc1] 1 1)
                   (doubleMat2Matlab E [utc2] 1 1) with
    | inr (_, _, _, retVals3) =>
        match scalarOf E retVals3 with
        | inr deltaT => Some deltaT
        | inl _ => None
        end
    | inl _ => None
    end
  else None.

(** The events of an iteration from the call of [iauTtut1] on, when that
    call does not report an unacceptable date. *)
Definition iteration_events (TDB1 TDB2 elon u v TT1 TT2 deltaTTUT1 : D)
    : list (event D) :=
  let '(retVal, (Jul1UT1, Jul2UT1)) := iauTtut1 E TT1 TT2 deltaTTUT1 in
  let UT1Frac := UT1Frac Jul1UT1 Jul2UT1 in
  let deltaT := iauDtdb E TDB1 TDB2 UT1Frac elon u v in
  [Call IauTtut1 [TT1; TT2; deltaTTUT1]]
  ++ (if retVal =? 1 then [Warn dubious_year] else [])
  ++ [Call IauDtdb [TDB1; TDB2; UT1Frac; elon; u; v];
      Call IauTdbtt [TDB1; TDB2; deltaT]].

(** The refined TT estimate: [iauTdbtt] applied to the original TDB date
    and the correction that [iauDtdb] computes from the original TDB date,
    the day fraction of the UT1 date that [iauTtut1] derives from the
    current TT estimate, and the cylindrical coordinates. *)
Definition refined (TDB1 TDB2 elon u v TT1 TT2 deltaTTUT1 : D) : Z * (D * D) :=
  let '(_, (Jul1UT1, Jul2UT1)) := iauTtut1 E TT1 TT2 deltaTTUT1 in
  let UT1Frac := UT1Frac Jul1UT1 Jul2UT1 in
  let deltaT := iauDtdb E TDB1 TDB2 UT1Frac elon u v in
  iauTdbtt E TDB1 TDB2 deltaT.

(** The offset of an iteration, when it has one, and the events of
    obtaining it. *)
Definition offset_of (iterateDeltaT : bool) (deltaTTUT1 TT1 TT2 : D)
    : option D :=
  if iterateDeltaT then looked_up TT1 TT2 else Some deltaTTUT1.

Definition offset_events (iterateDeltaT : bool) (TT1 TT2 : D)
    : list (event D) :=
  if iterateDeltaT then lookup_events_at TT1 TT2 else [].

(** The events of a call that ends well, after the arguments are read:
    obtaining the first offset at the TDB date, the first iteration,
    obtaining the second offset at the refined estimate [(TTa1, TTa2)], the
    second iteration. *)
Definition run_events (iterateDeltaT : bool) (TDB1 TDB2 elon u v : D)
    (dt1 TTa1 TTa2 dt2 : D) : list (event D) :=
  offset_events iterateDeltaT TDB1 TDB2
  ++ iteration_events TDB1 TDB2 elon u v TDB1 TDB2 dt1
  ++ offset_events iterateDeltaT TTa1 TTa2
  ++ iteration_events TDB1 TDB2 elon u v TTa1 TTa2 dt2.

(** The state [s] after lines 158-161 have written the outputs. *)
Definition with_outputs (nlhs : Z) (TT1 TT2 : D) (s : state D) : state D :=
  let o := <[0%nat := doubleMat2Matlab E [TT1] 1 1]> (plhs s) in
  State (heap s)
    (if nlhs >? 1 then <[1%nat := doubleMat2Matlab E [TT2] 1 1]> o else o)
    (trace s).

End Vocabulary.

(** ** The algorithm in the words of the specification

    The steps of the conversion as the specification describes them,
    written over the arrays of the caller and the answers of the
    collaborators only: none of these definitions mentions a definition of
    the translation unit, so that a statement made with them says what the
    translation unit computes, and not only that it computes what it
    computes. *)

Section Algorithm.
Context {D : Type} `{Double D} (E : Externals D).











End Algorithm.

(** ** Vocabulary of the further properties *)

Section Arguments.
Context {D : Type} `{Double D} (E : Externals D).

(** Lines 75-99 go through without error: the counts are accepted, the two
    parts of the TDB date are read as [TDB1] and [TDB2], and the third
    argument yields the pair [delta] of [iterateDeltaT] and [deltaTTUT1]. *)
Definition arguments_read (nlhs : Z) (prhs : list addr) (s : state D)
    (TDB1 TDB2 : D) (delta : bool * D) : Prop :=
  (2 <= length prhs <= 4)%nat /\ nlhs <= 2
  /\ bind (deref prhs 0) (fun a => getDoubleFromMatlab E a) s = (Ok TDB1, s)
  /\ bind (deref prhs 1) (fun a => getDoubleFromMatlab E a) s = (Ok TDB2, s)
  /\ delta_argument E (Z.of_nat (length prhs)) prhs s = (Ok delta, s).

(** What [getDeltaTFromEOP] reads of the result of [getEOP]: its error, or
    [retVals[3]]. *)
Definition fourth_output
    (r : string + (mxArray D * mxArray D * mxArray D * mxArray D))
    : string + mxArray D :=
  match r with
  | inl msg => inl msg
  | inr (_, _, _, retVals3) => inr retVals3
  end.

(** The events that [getDeltaTFromEOP] can add to the trace. *)
Definition from_lookup (e : event D) : Prop :=
  lookup_call e = true \/ e = Warn "Dubious Date entered.".

Definition same_trace (s s' : state D) : Prop := trace s' = trace s.

(** The message an iteration aborts with, if it aborts after its offset
    [deltaTTUT1] was obtained: line 135, or line 153. *)
Definition iteration_failure (TDB1 TDB2 elon u v TT1 TT2 deltaTTUT1 : D)
    : option string :=
  if fst (iauTtut1 E TT1 TT2 deltaTTUT1) =? -1
  then Some "Unacceptable date provided."
  else if fst (refined E TDB1 TDB2 elon u v TT1 TT2 deltaTTUT1) =? 0
       then None
       else Some intermediate_error.

(** The message a lookup at the TT date [(TT1, TT2)] aborts with, if it
    aborts: line 179, line 187, an error raised by [getEOP] at line 197, or
    what [getDoubleFromMatlab] raises at line 199 on a fourth output that
    it cannot read. *)
Definition lookup_failure (TT1 TT2 : D) : option string :=
  let '(status1, (tai1, tai2)) := iauTttai E TT1 TT2 in
  let '(status2, (utc1, utc2)) := iauTaiutc E tai1 tai2 in
  if negb (status1 =? 0) then Some "An error occurred computing TAI."
  else if status2 =? -1 then Some "Unacceptable date entered"
  else
    match getEOP E (doubleMat2Matlab E [utc1] 1 1)
                   (doubleMat2Matlab E [utc2] 1 1) with
    | inl msg => Some msg
    | inr (_, _, _, retVals3) =>
        match scalarOf E retVals3 with
        | inl msg => Some msg
        | inr _ => None
        end
    end.

(** The message an iteration aborts with at line 128, before it has its
    offset: that of the lookup, when the offset is looked up. *)
Definition offset_failure (iterateDeltaT : bool) (TT1 TT2 : D)
    : option string :=
  if iterateDeltaT then lookup_failure TT1 TT2 else None.

End Arguments.

(** ** Stand-ins for the collaborators

    A deterministic test double over exact arithmetic, used to run the
    gateway on concrete calls.  The SOFA conversions between time scales
    that differ by a fixed or given offset are the offset in days applied
    to the second component; the statuses they report are parameters, so
    that each error path can be exercised. *)

Module Stub.
Local Open Scope R_scope.

Definition scalar (x : R) : mxArray R :=
  MxArray mxDOUBLE_CLASS false 1 1 [x].

Definition column (x y z : R) : mxArray R :=
  MxArray mxDOUBLE_CLASS false 3 1 [x; y; z].

Definition empty : mxArray R :=
  MxArray mxDOUBLE_CLASS false 0 0 [].

Definition eop_table (utc1 utc2 : mxArray R)
    : string + (mxArray R * mxArray R * mxArray R * mxArray R) :=
  inr (column 0 0 0, column 0 0 0, scalar 0, scalar 69).

Definition eop_other_table (utc1 utc2 : mxArray R)
    : string + (mxArray R * mxArray R * mxArray R * mxArray R) :=
  inr (column 0 0 0, column 0 0 0, scalar 0, scalar 70).

Definition collaborators (ttut1_status tdbtt_status taiutc_status : Z)
    : Externals R := {|
  iauTtut1 := fun tt1 tt2 dt => (ttut1_status, (tt1, tt2 - dt / 86400));
  iauDtdb := fun date1 date2 ut elong u v => 0;
  iauTdbtt := fun tdb1 tdb2 dtr => (tdbtt_status, (tdb1, tdb2 - dtr / 86400));
  iauTttai := fun tt1 tt2 => (0%Z, (tt1, tt2 - 32184 / 86400000));
  iauTaiutc := fun tai1 tai2 => (taiutc_status, (tai1, tai2 - 37 / 86400));
  getEOP := eop_table;
  scalarOf := fun a =>
    match mxGetData a with
    | [x] => if mxIsComplex a then inl "Complex input" else inr x
    | _ => inl "Input is not scalar"
    end;
  realDoubleArrayError := fun a =>
    match mxGetClassID a with
    | mxDOUBLE_CLASS =>
        if mxIsComplex a then Some "Complex array" else None
    | _ => Some "Array is not of type double"
    end;
  doubleMat2Matlab := fun data numRow numCol =>
    MxArray mxDOUBLE_CLASS false numRow numCol data
|}.

(** The caller's workspace of the example calls: the two parts of the date
    J2000.0, a TT-UT1 offset, a clock on the equator, an empty array, and
    a clock at the centre of the Earth. *)
Definition workspace : state R := {|
  heap := <[0%nat := scalar 2451545]>
          (<[1%nat := scalar 0]>
          (<[2%nat := scalar 64]>
          (<[3%nat := column 6378137 0 0]>
          (<[4%nat := empty]>
          (<[5%nat := column 0 0 0]> ∅)))));
  plhs := ∅;
  trace := []
|}.

End Stub.

(** Further arrays and collaborators for the example calls; the workspace
    has in addition a clock location given as a row, at address 6. *)
Module Example.
Local Open Scope R_scope.

Definition row (x y z : R) : mxArray R :=
  MxArray mxDOUBLE_CLASS false 1 3 [x; y; z].

(** A clock location of class single, at address 7. *)
Definition single_column (x y z : R) : mxArray R :=
  MxArray mxSINGLE_CLASS false 3 1 [x; y; z].

Definition workspace : state R := {|
  heap := <[6%nat := row 6378137 0 0]>
          (<[7%nat := single_column 6378137 0 0]> (heap Stub.workspace));
  plhs := ∅;
  trace := []
|}.

(** An Earth-orientation table whose fourth output is not a scalar. *)
Definition eop_vector_offset (utc1 utc2 : mxArray R)
    : string + (mxArray R * mxArray R * mxArray R * mxArray R) :=
  inr (Stub.column 0 0 0, Stub.column 0 0 0, Stub.scalar 0,
       Stub.column 69 69 69).

(** An Earth-orientation table that differs from [Stub.eop_table] in its
    first three outputs only. *)
Definition eop_same_fourth (utc1 utc2 : mxArray R)
    : string + (mxArray R * mxArray R * mxArray R * mxArray R) :=
  inr (Stub.column 1 2 3, Stub.column 4 5 6, Stub.scalar 7, Stub.scalar 69).

(** Collaborators whose [iauTtut1] rejects a TT date with a negative
    second part, and whose [iauDtdb] gives a correction of one second: the
    estimate of the first iteration is rejected in the second. *)
Definition rejecting_refined : Externals R := {|
  iauTtut1 := fun tt1 tt2 dt =>
    (if Rlt_dec tt2 0 then (-1)%Z else 0%Z, (tt1, tt2 - dt / 86400));
  iauDtdb := fun date1 date2 ut elong u v => 1;
  iauTdbtt := fun tdb1 tdb2 dtr => (0%Z, (tdb1, tdb2 - dtr / 86400));
  iauTttai := iauTttai (Stub.collaborators 0 0 0);
  iauTaiutc := iauTaiutc (Stub.collaborators 0 0 0);
  getEOP := Stub.eop_table;
  scalarOf := scalarOf (Stub.collaborators 0 0 0);
  realDoubleArrayError := realDoubleArrayError (Stub.collaborators 0 0 0);
  doubleMat2Matlab := doubleMat2Matlab (Stub.collaborators 0 0 0)
|}.


End Example.

(** * Properties *)

(** ** The fraction of a day *)

Section Fraction.
Local Open Scope R_scope.

Lemma Rfloor_bound (x : R) : Rfloor x <= x < Rfloor x + 1.
Proof. apply Zfloor_bound. Qed.

Lemma Rfloor_unique (n : Z) (x : R) : IZR n <= x < IZR n + 1 -> Rfloor x = IZR n.
Proof.
  intros Hn. unfold Rfloor. f_equal. apply Zfloor_eq. exact Hn.
Qed.

(** The floor of a sum splits into the floors of the terms and the carry of
    their fractions. *)
Lemma Rfloor_sum (a b : R) :
  Rfloor (a + b) =
  Rfloor a + Rfloor b + Rfloor ((a - Rfloor a) + (b - Rfloor b)).
Proof.
  set (c := (a - Rfloor a) + (b - Rfloor b)).
  destruct (Rfloor_bound c) as [Hc1 Hc2].
  unfold Rfloor at 2 3 4. rewrite <- !plus_IZR.
  apply Rfloor_unique. rewrite !plus_IZR. fold (Rfloor a) (Rfloor b) (Rfloor c).
  unfold c in *. lra.
Qed.

(** C6: over exact arithmetic, for every pair of UT1 Julian date components,
    the value [UT1Frac] computed at lines 145-146 (the sum of the two
    fractional parts, less its own floor) is the fractional part of the full
    date [Jul1UT1 + Jul2UT1], and it lies in the interval [0, 1). *)
Theorem UT1Frac_is_fraction_of_full_date (Jul1UT1 Jul2UT1 : R) :
  UT1Frac Jul1UT1 Jul2UT1 = (Jul1UT1 + Jul2UT1) - Rfloor (Jul1UT1 + Jul2UT1)
  /\ 0 <= UT1Frac Jul1UT1 Jul2UT1 < 1.
Proof.
  assert (Heq : UT1Frac Jul1UT1 Jul2UT1
                = (Jul1UT1 + Jul2UT1) - Rfloor (Jul1UT1 + Jul2UT1)).
  { unfold UT1Frac. cbn [floor dadd dsub R_Double].
    rewrite (Rfloor_sum Jul1UT1 Jul2UT1). lra. }
  split; [exact Heq|].
  rewrite Heq.
  pose proof (Rfloor_bound (Jul1UT1 + Jul2UT1)). lra.
Qed.

End Fraction.

(** ** Running the monad *)

Section Runs.
Context {D : Type} `{Double D}.

Lemma bind_Ok {A B} (m : M D A) (k : A -> M D B) s a s' :
  m s = (Ok a, s') -> bind m k s = k a s'.
Proof. intros Hm. unfold bind. now rewrite Hm. Qed.

Lemma bind_Fatal {A B} (m : M D A) (k : A -> M D B) s msg s' :
  m s = (Fatal msg, s') -> bind m k s = (Fatal msg, s').
Proof. intros Hm. unfold bind. now rewrite Hm. Qed.


(** A run that ends well went through both halves of a [bind]. *)
Lemma bind_Ok_inv {A B} (m : M D A) (k : A -> M D B) s b s2 :
  bind m k s = (Ok b, s2) ->
  exists a s1, m s = (Ok a, s1) /\ k a s1 = (Ok b, s2).
Proof.
  unfold bind. destruct (m s) as [[a|msg|] s1]; intros Hk;
    [eauto | discriminate | discriminate].
Qed.

Lemma bind_ret_l {A B} (a : A) (k : A -> M D B) s : bind (ret a) k s = k a s.
Proof. reflexivity. Qed.


Lemma bind_bind {A B C} (m : M D A) (f : A -> M D B) (g : B -> M D C) s :
  bind (bind m f) g s = bind m (fun a => bind (f a) g) s.
Proof. unfold bind. destruct (m s) as [[a|msg|] s1]; reflexivity. Qed.

Lemma bind_emit {B} (e : event D) (k : unit -> M D B) s :
  bind (emit e) k s = k tt (add_events s [e]).
Proof. reflexivity. Qed.

Lemma add_events_app (s : state D) evs1 evs2 :
  add_events (add_events s evs1) evs2 = add_events s (evs1 ++ evs2).
Proof. unfold add_events. cbn. now rewrite <- app_assoc. Qed.

Lemma add_events_nil (s : state D) : add_events s [] = s.
Proof. destruct s. unfold add_events. cbn. now rewrite app_nil_r. Qed.

End Runs.

(** ** Argument counts *)

Section Usage.
Context {D : Type} `{Double D} (E : Externals D).

(** C9: a call with fewer than 2 or more than 4 inputs, or with more than
    2 requested outputs, ends in a usage error, and it does so in the state
    it started in: no array of the heap was consulted (the result is the
    same for every heap and every collaborator), no output slot was written
    and no external call or warning was made. *)
Theorem wrong_counts_abort_before_anything
    (nlhs : Z) (prhs : list addr) (s : state D) :
  (length prhs < 2)%nat \/ (length prhs > 4)%nat \/ nlhs > 2 ->
  exists msg,
    (msg = "Wrong number of inputs." \/ msg = "Wrong number of outputs.")
    /\ mexFunction E nlhs prhs s = (Fatal msg, s).
Proof.
  intros Hbad. unfold mexFunction.
  destruct ((Z.of_nat (length prhs) <? 2) || (Z.of_nat (length prhs) >? 4))
    eqn:Hin.
  - exists "Wrong number of inputs.". split; [now left | reflexivity].
  - apply orb_false_iff in Hin as [Hlo Hhi].
    apply Z.ltb_ge in Hlo. rewrite Z.gtb_ltb in Hhi. apply Z.ltb_ge in Hhi.
    destruct (nlhs >? 2) eqn:Hout.
    + exists "Wrong number of outputs.". split; [now right | reflexivity].
    + exfalso. rewrite Z.gtb_ltb in Hout. apply Z.ltb_ge in Hout. lia.
Qed.

End Usage.

(** A call with one argument is rejected. *)
Lemma wrong_counts_abort_before_anything_witness :
  exists msg,
    (msg = "Wrong number of inputs." \/ msg = "Wrong number of outputs.")
    /\ mexFunction (Stub.collaborators 0 0 0) 1 [0%nat] Stub.workspace
       = (Fatal msg, Stub.workspace).
Proof.
  apply (wrong_counts_abort_before_anything (Stub.collaborators 0 0 0) 1
           [0%nat] Stub.workspace).
  left. cbn. lia.
Defined.

(** ** What a run may change

    A relation [R] between the state before and after, closed under
    sequencing, holds of a whole function once it holds of the primitives
    the function is built from.  Each lemma assumes only the kinds of
    state change that its code can perform. *)

Section Frame.
Context {D : Type} `{Double D} (E : Externals D).
Context (R : state D -> state D -> Prop) `{!Frame R}.

Lemma keeps_ret {A} (a : A) : keeps R (ret a).
Proof. intros s. apply R_refl. Qed.

Lemma keeps_mexErrMsgTxt {A} msg : keeps R (@mexErrMsgTxt D A msg).
Proof. intros s. apply R_refl. Qed.

Lemma keeps_undefined {A} : keeps R (@undefined D A).
Proof. intros s. apply R_refl. Qed.

Lemma keeps_bind {A B} (m : M D A) (k : A -> M D B) :
  keeps R m -> (forall a, keeps R (k a)) -> keeps R (bind m k).
Proof.
  intros Hm Hk s. unfold bind. specialize (Hm s).
  destruct (m s) as [[a|msg|] s1]; cbn in *; [|assumption|assumption].
  eapply R_trans; [exact Hm | apply Hk].
Qed.

Lemma keeps_bind_at {A B} (m : M D A) (k : A -> M D B) s :
  R s (snd (m s)) ->
  (forall a s1, m s = (Ok a, s1) -> R s1 (snd (k a s1))) ->
  R s (snd (bind m k s)).
Proof.
  intros Hm Hk. unfold bind.
  destruct (m s) as [[a|msg|] s1]; cbn [snd] in *; [|assumption|assumption].
  eapply R_trans; [exact Hm | now apply Hk].
Qed.

Lemma keeps_deref prhs i : keeps R (deref prhs i).
Proof.
  intros s. unfold deref.
  destruct (prhs !! i) as [p|]; [|apply R_refl].
  destruct (heap s !! p); apply R_refl.
Qed.

Lemma keeps_load p i : keeps R (load p i).
Proof.
  intros s. unfold load.
  destruct (heap s !! p) as [a|]; [|apply R_refl].
  destruct (mxGetData a !! i); apply R_refl.
Qed.

Lemma keeps_getDoubleFromMatlab a : keeps R (getDoubleFromMatlab E a).
Proof.
  unfold getDoubleFromMatlab.
  destruct (scalarOf E a); [apply keeps_mexErrMsgTxt | apply keeps_ret].
Qed.

Lemma keeps_checkRealDoubleArray a : keeps R (checkRealDoubleArray E a).
Proof.
  unfold checkRealDoubleArray.
  destruct (realDoubleArrayError E a); [apply keeps_mexErrMsgTxt | apply keeps_ret].
Qed.

Lemma keeps_for_loop {A} n (body : A -> M D A) :
  (forall a, keeps R (body a)) -> forall a, keeps R (for_loop n body a).
Proof.
  intros Hbody. induction n as [|n IH]; intros a; cbn [for_loop].
  - apply keeps_ret.
  - apply keeps_bind; [apply Hbody | exact IH].
Qed.

Lemma keeps_delta_argument nrhs prhs : keeps R (delta_argument E nrhs prhs).
Proof.
  unfold delta_argument. apply keeps_bind.
  - destruct (nrhs >? 2); [|apply keeps_ret].
    apply keeps_bind; [apply keeps_deref | intros; apply keeps_ret].
  - intros [|]; [|apply keeps_ret].
    apply keeps_bind; [apply keeps_deref | intros a].
    apply keeps_bind; [apply keeps_getDoubleFromMatlab | intros; apply keeps_ret].
Qed.

Context `{!CoreEvents R}.

Lemma keeps_emit_core e : lookup_call e = false -> keeps R (emit e).
Proof. intros He s. cbn. now apply R_emit_core. Qed.

(** The loop body when the offset was supplied. *)
Lemma keeps_iteration_supplied TDB1 TDB2 elon u v vars :
  keeps R (iteration E false TDB1 TDB2 elon u v vars).
Proof.
  destruct vars as [[TT1 TT2] deltaTTUT1]. unfold iteration.
  apply keeps_bind; [apply keeps_ret | intros dt].
  apply keeps_bind; [now apply keeps_emit_core | intros _].
  destruct (iauTtut1 E TT1 TT2 dt) as [retVal [Jul1UT1 Jul2UT1]].
  apply keeps_bind.
  { destruct (retVal =? -1); [apply keeps_mexErrMsgTxt|].
    destruct (retVal =? 1); [now apply keeps_emit_core | apply keeps_ret]. }
  intros _. apply keeps_bind; [now apply keeps_emit_core | intros _].
  apply keeps_bind; [now apply keeps_emit_core | intros _].
  destruct (iauTdbtt E TDB1 TDB2 _) as [retVal' [TT1' TT2']].
  destruct (retVal' =? 0); [apply keeps_ret | apply keeps_mexErrMsgTxt].
Qed.

Context `{!LookupEvents R}.

Lemma keeps_emit e : keeps R (emit e).
Proof.
  intros s. cbn.
  destruct (lookup_call e) eqn:He; [now apply R_emit_lookup | now apply R_emit_core].
Qed.

Lemma keeps_getDeltaTFromEOP TT1 TT2 : keeps R (getDeltaTFromEOP E TT1 TT2).
Proof.
  unfold getDeltaTFromEOP.
  apply keeps_bind; [apply keeps_emit | intros _].
  destruct (iauTttai E TT1 TT2) as [retVal [JulUTC0 JulUTC1]].
  apply keeps_bind.
  { destruct (retVal =? 0); [apply keeps_ret | apply keeps_mexErrMsgTxt]. }
  intros _. apply keeps_bind; [apply keeps_emit | intros _].
  destruct (iauTaiutc E JulUTC0 JulUTC1) as [retVal' [utc1 utc2]].
  apply keeps_bind.
  { destruct (retVal' =? 1); [apply keeps_emit|].
    destruct (retVal' =? -1); [apply keeps_mexErrMsgTxt | apply keeps_ret]. }
  intros _. apply keeps_bind.
  { unfold mexCallMATLAB_getEOP. apply keeps_bind; [apply keeps_emit | intros _].
    destruct (getEOP E _ _); [apply keeps_mexErrMsgTxt | apply keeps_ret]. }
  intros [[[r0 r1] r2] r3].
  apply keeps_bind; [apply keeps_getDoubleFromMatlab | intros; apply keeps_ret].
Qed.

Lemma keeps_iteration iterateDeltaT TDB1 TDB2 elon u v vars :
  keeps R (iteration E iterateDeltaT TDB1 TDB2 elon u v vars).
Proof.
  destruct vars as [[TT1 TT2] deltaTTUT1]. unfold iteration.
  apply keeps_bind.
  { destruct iterateDeltaT; [apply keeps_getDeltaTFromEOP | apply keeps_ret]. }
  intros dt. apply keeps_bind; [apply keeps_emit | intros _].
  destruct (iauTtut1 E TT1 TT2 dt) as [retVal [Jul1UT1 Jul2UT1]].
  apply keeps_bind.
  { destruct (retVal =? -1); [apply keeps_mexErrMsgTxt|].
    destruct (retVal =? 1); [apply keeps_emit | apply keeps_ret]. }
  intros _. apply keeps_bind; [apply keeps_emit | intros _].
  apply keeps_bind; [apply keeps_emit | intros _].
  destruct (iauTdbtt E TDB1 TDB2 _) as [retVal' [TT1' TT2']].
  destruct (retVal' =? 0); [apply keeps_ret | apply keeps_mexErrMsgTxt].
Qed.

Context `{!HeapWrites R}.

Lemma keeps_store p i x : keeps R (store p i x).
Proof.
  intros s. unfold store.
  destruct (heap s !! p) as [a|]; [|apply R_refl].
  destruct (decide _); [apply R_heap | apply R_refl].
Qed.

Lemma keeps_clock_location nrhs prhs : keeps R (clock_location E nrhs prhs).
Proof.
  unfold clock_location. apply keeps_bind.
  - destruct (nrhs >? 3); [|apply keeps_ret].
    apply keeps_bind; [apply keeps_deref | intros; apply keeps_ret].
  - intros [|]; [|apply keeps_ret].
    apply keeps_bind; [apply keeps_deref | intros a].
    apply keeps_bind.
    { destruct (_ || _); [apply keeps_mexErrMsgTxt | apply keeps_ret]. }
    intros _. apply keeps_bind; [apply keeps_checkRealDoubleArray | intros _].
    destruct (prhs !! 3%nat) as [xyzClock|]; [|apply keeps_undefined].
    repeat (apply keeps_bind;
            [first [apply keeps_load | apply keeps_store] | intros ?]).
    apply keeps_ret.
Qed.

Context `{!OutputWrites R}.

Lemma keeps_return_outputs nlhs TT1 TT2 : keeps R (return_outputs E nlhs TT1 TT2).
Proof.
  unfold return_outputs. apply keeps_bind.
  - intros s. apply R_plhs.
  - intros _. destruct (nlhs >? 1); [|apply keeps_ret].
    intros s. apply R_plhs.
Qed.

End Frame.

(** ** The clock location *)

Section Clock.
Context {D : Type} `{Double D} (E : Externals D).

Lemma deref_eq prhs i p a (s : state D) :
  prhs !! i = Some p -> heap s !! p = Some a -> deref prhs i s = (Ok a, s).
Proof. intros Hp Ha. unfold deref. now rewrite Hp, Ha. Qed.

Lemma load_eq p i a x (s : state D) :
  heap s !! p = Some a -> mxGetData a !! i = Some x -> load p i s = (Ok x, s).
Proof. intros Ha Hx. unfold load. now rewrite Ha, Hx. Qed.

Lemma store_eq p i a x (s : state D) :
  heap s !! p = Some a -> (i < length (mxGetData a))%nat ->
  store p i x s =
  (Ok tt, State (<[p := with_data a (<[i := x]> (mxGetData a))]> (heap s))
            (plhs s) (trace s)).
Proof.
  intros Ha Hi. unfold store. rewrite Ha.
  destruct (decide _) as [_|Hn]; [reflexivity | contradiction].
Qed.

(** [xyzClock[i]/=1000] followed by the rest of the block. *)
Lemma divide_in_place {A} p i a x (k : unit -> M D A) (s : state D) :
  heap s !! p = Some a -> mxGetData a !! i = Some x ->
  bind (load p i) (fun x0 => bind (store p i (x0 / of_int 1000)%D) k) s =
  k tt (State
          (<[p := with_data a (<[i := (x / of_int 1000)%D]> (mxGetData a))]>
             (heap s))
          (plhs s) (trace s)).
Proof.
  intros Ha Hx.
  rewrite (bind_Ok _ _ s x s (load_eq _ _ _ _ _ Ha Hx)).
  erewrite bind_Ok; [reflexivity|].
  apply store_eq; [exact Ha|]. now apply lookup_lt_Some in Hx.
Qed.

(** The run of lines 101-121 on a 3-by-1 real array of doubles. *)
Lemma clock_location_supplied nrhs prhs xyzClock a x y z (s : state D) :
  nrhs > 3 ->
  prhs !! 3%nat = Some xyzClock ->
  heap s !! xyzClock = Some a ->
  mxGetM a = 3 -> mxGetN a = 1 ->
  realDoubleArrayError E a = None ->
  mxGetData a = [x; y; z] ->
  let x' := (x / of_int 1000)%D in
  let y' := (y / of_int 1000)%D in
  let z' := (z / of_int 1000)%D in
  clock_location E nrhs prhs s =
  (Ok (sqrt (x' * x' + y' * y')%D, z', atan2 y' x'),
   State (<[xyzClock := with_data a (kilometres x y z)]> (heap s))
     (plhs s) (trace s)).
Proof.
  intros Hn Hp Ha HM HN Hreal Hdata x' y' z'.
  assert (Hne : mxIsEmpty a = false).
  { unfold mxIsEmpty. now rewrite HM, HN. }
  unfold clock_location.
  assert (Hgt : (nrhs >? 3) = true) by (apply Z.gtb_lt; lia).
  rewrite Hgt.
  rewrite (bind_Ok _ _ s true s);
    [|rewrite (bind_Ok _ _ s a s (deref_eq _ _ _ _ _ Hp Ha));
      unfold ret; now rewrite Hne].
  rewrite (bind_Ok _ _ s a s (deref_eq _ _ _ _ _ Hp Ha)).
  rewrite HM, HN. cbn [Z.eqb Pos.eqb negb orb].
  rewrite (bind_Ok _ _ s tt s eq_refl).
  unfold checkRealDoubleArray. rewrite Hreal.
  rewrite (bind_Ok _ _ s tt s eq_refl).
  rewrite Hp.
  rewrite (divide_in_place xyzClock 0 a x); [|exact Ha | now rewrite Hdata].
  rewrite Hdata. set (s1 := State _ _ _).
  rewrite (divide_in_place xyzClock 1 (with_data a [x'; y; z]) y);
    [|apply lookup_insert_eq | reflexivity].
  set (s2 := State _ _ _).
  rewrite (divide_in_place xyzClock 2 (with_data a [x'; y'; z]) z);
    [|apply lookup_insert_eq | reflexivity].
  set (s3 := State _ _ _).
  assert (Ha3 : heap s3 !! xyzClock = Some (with_data a [x'; y'; z']))
    by apply lookup_insert_eq.
  rewrite (bind_Ok _ _ _ x' s3); [|eapply load_eq; [exact Ha3 | reflexivity]].
  rewrite (bind_Ok _ _ _ y' s3); [|eapply load_eq; [exact Ha3 | reflexivity]].
  rewrite (bind_Ok _ _ _ z' s3); [|eapply load_eq; [exact Ha3 | reflexivity]].
  rewrite (bind_Ok _ _ _ y' s3); [|eapply load_eq; [exact Ha3 | reflexivity]].
  rewrite (bind_Ok _ _ _ x' s3); [|eapply load_eq; [exact Ha3 | reflexivity]].
  unfold ret, s3, s2, s1. cbn [heap plhs trace].
  now rewrite !insert_insert_eq.
Qed.

(** The run of lines 101-121 when the fourth argument is missing. *)
Lemma clock_location_absent nrhs prhs (s : state D) :
  nrhs <= 3 ->
  clock_location E nrhs prhs s = (Ok (of_int 0, of_int 0, of_int 0), s).
Proof.
  intros Hn. unfold clock_location.
  assert (Hgt : (nrhs >? 3) = false) by (rewrite Z.gtb_ltb; apply Z.ltb_ge; lia).
  now rewrite Hgt.
Qed.

(** The run of lines 101-121 when the fourth argument is an empty array. *)
Lemma clock_location_empty nrhs prhs p a (s : state D) :
  prhs !! 3%nat = Some p -> heap s !! p = Some a -> mxIsEmpty a = true ->
  clock_location E nrhs prhs s = (Ok (of_int 0, of_int 0, of_int 0), s).
Proof.
  intros Hp Ha Hempty. unfold clock_location.
  destruct (nrhs >? 3); [|reflexivity].
  rewrite (bind_Ok _ _ s false s); [reflexivity|].
  rewrite (bind_Ok _ _ s a s (deref_eq _ _ _ _ _ Hp Ha)).
  unfold ret. now rewrite Hempty.
Qed.

(** C5: when a clock location is supplied (a 3-by-1 real array of doubles,
    in metres), lines 101-121 scale each component by 1/1000 and derive the
    cylindrical coordinates from the scaled components: the radius
    [u = sqrt (x*x + y*y)], the height [v = z] and the longitude
    [elon = atan2 y x].  When the fourth argument is absent, or is an empty
    array, radius, height and longitude are all zero. *)
Theorem clock_location_cylindrical nrhs prhs (s : state D) :
  (forall xyzClock a x y z,
      nrhs > 3 ->
      prhs !! 3%nat = Some xyzClock ->
      heap s !! xyzClock = Some a ->
      mxGetM a = 3 -> mxGetN a = 1 ->
      realDoubleArrayError E a = None ->
      mxGetData a = [x; y; z] ->
      let x' := (x / of_int 1000)%D in
      let y' := (y / of_int 1000)%D in
      let z' := (z / of_int 1000)%D in
      fst (clock_location E nrhs prhs s) =
      Ok (sqrt (x' * x' + y' * y')%D, z', atan2 y' x'))
  /\ (nrhs <= 3 ->
      clock_location E nrhs prhs s = (Ok (of_int 0, of_int 0, of_int 0), s))
  /\ (forall p a,
      prhs !! 3%nat = Some p -> heap s !! p = Some a -> mxIsEmpty a = true ->
      clock_location E nrhs prhs s = (Ok (of_int 0, of_int 0, of_int 0), s)).
Proof.
  split; [|split].
  - intros xyzClock a x y z Hn Hp Ha HM HN Hreal Hdata x' y' z'.
    now rewrite (clock_location_supplied _ _ _ _ _ _ _ _ Hn Hp Ha HM HN Hreal Hdata).
  - apply clock_location_absent.
  - intros p a Hp Ha Hempty. now apply (clock_location_empty nrhs prhs p a).
Qed.

End Clock.

(** A supplied clock on the equator, an omitted one and an empty one. *)
Lemma clock_location_cylindrical_witness :
  let E := Stub.collaborators 0 0 0 in
  let s := Stub.workspace in
  fst (clock_location E 4 [0; 1; 2; 3]%nat s) =
    Ok (sqrt (6378137 / 1000 * (6378137 / 1000) + 0 / 1000 * (0 / 1000))%R,
        (0 / 1000)%R, atan2 (0 / 1000)%R (6378137 / 1000)%R)
  /\ clock_location E 3 [0; 1; 2]%nat s = (Ok (0%R, 0%R, 0%R), s)
  /\ clock_location E 4 [0; 1; 2; 4]%nat s = (Ok (0%R, 0%R, 0%R), s).
Proof.
  intros E s.
  destruct (clock_location_cylindrical E 4 [0; 1; 2; 3]%nat s) as [Hsup _].
  destruct (clock_location_cylindrical E 3 [0; 1; 2]%nat s) as [_ [Habs _]].
  destruct (clock_location_cylindrical E 4 [0; 1; 2; 4]%nat s) as [_ [_ Hemp]].
  split; [|split].
  - apply (Hsup 3%nat (Stub.column 6378137 0 0)); reflexivity.
  - apply Habs. lia.
  - apply (Hemp 4%nat Stub.empty); reflexivity.
Defined.

(** ** What the gateway leaves in the caller's array *)

Section Mutation.
Context {D : Type} `{Double D} (E : Externals D).

#[local] Instance same_heap_frame : Frame (@same_heap D).
Proof. split; unfold same_heap; congruence. Qed.

#[local] Instance same_heap_core : CoreEvents (@same_heap D).
Proof. intros e s _. reflexivity. Qed.

#[local] Instance same_heap_lookup : LookupEvents (@same_heap D).
Proof. intros e s _. reflexivity. Qed.

#[local] Instance same_heap_outputs : OutputWrites (@same_heap D).
Proof. intros s o. reflexivity. Qed.

(** The loop and the assignment of the outputs do not write to the heap. *)
Lemma loop_and_outputs_same_heap nlhs iterateDeltaT TDB1 TDB2 elon u v vars
    (s : state D) :
  heap (snd (bind (for_loop 2 (iteration E iterateDeltaT TDB1 TDB2 elon u v)
                     vars)
               (fun vars' => let '(TT1, TT2, _) := vars' in
                             return_outputs E nlhs TT1 TT2) s))
  = heap s.
Proof.
  apply (keeps_bind same_heap).
  - apply keeps_for_loop; [exact _|]. intros a. apply keeps_iteration; exact _.
  - intros [[TT1 TT2] dt]. apply keeps_return_outputs; exact _.
Qed.

(** The offset argument of a four-argument call: empty, or a scalar. *)
Lemma delta_argument_given nrhs prhs p a d (s : state D) :
  nrhs > 2 -> prhs !! 2%nat = Some p -> heap s !! p = Some a ->
  mxIsEmpty a = false -> scalarOf E a = inr d ->
  delta_argument E nrhs prhs s = (Ok (false, d), s).
Proof.
  intros Hn Hp Ha Hne Hd. unfold delta_argument.
  assert (Hgt : (nrhs >? 2) = true) by (apply Z.gtb_lt; lia).
  rewrite Hgt.
  rewrite (bind_Ok _ _ s true s);
    [|rewrite (bind_Ok _ _ s a s (deref_eq _ _ _ _ _ Hp Ha));
      unfold ret; now rewrite Hne].
  rewrite (bind_Ok _ _ s a s (deref_eq _ _ _ _ _ Hp Ha)).
  unfold getDoubleFromMatlab. now rewrite Hd.
Qed.

Lemma delta_argument_empty nrhs prhs p a (s : state D) :
  prhs !! 2%nat = Some p -> heap s !! p = Some a -> mxIsEmpty a = true ->
  delta_argument E nrhs prhs s = (Ok (true, of_int 0), s).
Proof.
  intros Hp Ha Hempty. unfold delta_argument.
  destruct (nrhs >? 2); [|reflexivity].
  rewrite (bind_Ok _ _ s false s); [reflexivity|].
  rewrite (bind_Ok _ _ s a s (deref_eq _ _ _ _ _ Hp Ha)).
  unfold ret. now rewrite Hempty.
Qed.

Lemma delta_argument_absent nrhs prhs (s : state D) :
  nrhs <= 2 -> delta_argument E nrhs prhs s = (Ok (true, of_int 0), s).
Proof.
  intros Hn. unfold delta_argument.
  assert (Hgt : (nrhs >? 2) = false) by (rewrite Z.gtb_ltb; apply Z.ltb_ge; lia).
  now rewrite Hgt.
Qed.

(** [getDoubleFromMatlab(prhs[i])] on a readable scalar. *)
Lemma read_scalar prhs i p a x (s : state D) :
  prhs !! i = Some p -> heap s !! p = Some a -> scalarOf E a = inr x ->
  bind (deref prhs i) (fun a => getDoubleFromMatlab E a) s = (Ok x, s).
Proof.
  intros Hp Ha Hx.
  rewrite (bind_Ok _ _ s a s (deref_eq _ _ _ _ _ Hp Ha)).
  unfold getDoubleFromMatlab. now rewrite Hx.
Qed.

(** The heap after such a call, whether the loop ends well or not. *)
Lemma heap_after_call4 nlhs prhs xyzClock a x y z (s : state D) :
  valid_call4 E nlhs prhs s xyzClock a ->
  mxGetData a = [x; y; z] ->
  heap (snd (mexFunction E nlhs prhs s)) =
  <[xyzClock := with_data a (kilometres x y z)]> (heap s).
Proof.
  intros [Hnlhs (p0 & p1 & p2 & Hprhs) (q0 & a0 & TDB1 & Hq0 & Ha0 & H0)
          (q1 & a1 & TDB2 & Hq1 & Ha1 & H1) (q2 & a2 & Hq2 & Ha2 & H2)
          Ha HM HN Hreal] Hdata.
  unfold mexFunction. subst prhs.
  change (Z.of_nat (length [p0; p1; p2; xyzClock])) with 4.
  change ((4 <? 2) || (4 >? 4)) with false. cbv iota.
  assert (Hout : (nlhs >? 2) = false) by (rewrite Z.gtb_ltb; apply Z.ltb_ge; lia).
  rewrite Hout.
  rewrite (bind_Ok _ _ s TDB1 s (read_scalar _ _ _ _ _ _ Hq0 Ha0 H0)).
  rewrite (bind_Ok _ _ s TDB2 s (read_scalar _ _ _ _ _ _ Hq1 Ha1 H1)).
  assert (Hdelta : exists delta,
             delta_argument E 4 [p0; p1; p2; xyzClock] s = (Ok delta, s)).
  { destruct (mxIsEmpty a2) eqn:Hempty.
    - eexists. now apply (delta_argument_empty _ _ q2 a2).
    - destruct H2 as [Habs | [d Hd]]; [discriminate|].
      eexists. apply (delta_argument_given _ _ q2 a2 d); auto. lia. }
  destruct Hdelta as [[iterateDeltaT deltaTTUT1] Hdelta].
  rewrite (bind_Ok _ _ s _ s Hdelta).
  erewrite bind_Ok;
    [|apply (clock_location_supplied E 4 _ xyzClock a x y z); auto; lia].
  cbv beta iota. now rewrite loop_and_outputs_same_heap.
Qed.

(** C10, as amended: when a 3-by-1 real clock location is supplied in a
    call that passes argument validation, the gateway divides the three
    components of the caller's array by 1000 in place; this is what the
    array holds after the call whether the call returns or aborts inside
    the loop.  The caller's array is left as it was exactly when dividing
    by 1000 changes none of its components. *)
Theorem clock_array_divided_in_place nlhs prhs xyzClock a x y z (s : state D) :
  valid_call4 E nlhs prhs s xyzClock a ->
  mxGetData a = [x; y; z] ->
  let s' := snd (mexFunction E nlhs prhs s) in
  heap s' !! xyzClock = Some (with_data a (kilometres x y z))
  /\ (heap s' !! xyzClock = heap s !! xyzClock <->
      (x / of_int 1000)%D = x /\ (y / of_int 1000)%D = y
      /\ (z / of_int 1000)%D = z).
Proof.
  intros Hvalid Hdata s'. unfold s'.
  rewrite (heap_after_call4 _ _ _ _ _ _ _ _ Hvalid Hdata).
  rewrite lookup_insert_eq, (v4_clock _ _ _ _ _ _ Hvalid).
  split; [reflexivity|].
  destruct a as [c cx m n data]. cbn in Hdata. subst data.
  unfold with_data, kilometres. cbn [mxGetClassID mxIsComplex mxGetM mxGetN].
  split.
  - intros Heq. injection Heq as Hx Hy Hz. auto.
  - intros (Hx & Hy & Hz). now rewrite Hx, Hy, Hz.
Qed.

End Mutation.

(** The example call [TDB2TT(2451545, 0, 64, clockLoc)] on the stand-in
    collaborators, with the clock location at address [c]. *)
Lemma stub_valid_call4 (c : addr) (x y z : R) :
  heap Stub.workspace !! c = Some (Stub.column x y z) ->
  valid_call4 (Stub.collaborators 0 0 0) 2 [0; 1; 2; c]%nat Stub.workspace
    c (Stub.column x y z).
Proof.
  intros Hc. split; try reflexivity; try exact Hc.
  - now exists 0%nat, 1%nat, 2%nat.
  - now exists 0%nat, (Stub.scalar 2451545), 2451545%R.
  - now exists 1%nat, (Stub.scalar 0), 0%R.
  - exists 2%nat, (Stub.scalar 64). repeat split; [right; now exists 64%R].
Qed.

(** A clock on the equator: the caller's array is rewritten. *)
Lemma clock_array_divided_in_place_witness :
  let s' := snd (mexFunction (Stub.collaborators 0 0 0) 2 [0; 1; 2; 3]%nat
                   Stub.workspace) in
  heap s' !! 3%nat = Some (with_data (Stub.column 6378137 0 0)
                             (kilometres 6378137%R 0%R 0%R))
  /\ (heap s' !! 3%nat = heap Stub.workspace !! 3%nat <->
      (6378137 / 1000 = 6378137 /\ 0 / 1000 = 0 /\ 0 / 1000 = 0)%R).
Proof.
  refine (clock_array_divided_in_place (Stub.collaborators 0 0 0) 2
            [0; 1; 2; 3]%nat 3%nat (Stub.column 6378137 0 0)
            6378137%R 0%R 0%R Stub.workspace _ _).
  - now apply stub_valid_call4.
  - reflexivity.
Defined.

(** C10 as stated fails for a clock at the centre of the Earth given
    explicitly: the call returns, each component of the caller's array is
    divided by 1000, and the array [[0; 0; 0]] is left as it was. *)
Lemma clock_at_centre_left_unchanged :
  let r := mexFunction (Stub.collaborators 0 0 0) 2 [0; 1; 2; 5]%nat
             Stub.workspace in
  fst r = Ok tt
  /\ heap Stub.workspace !! 5%nat = Some (Stub.column 0 0 0)
  /\ heap (snd r) !! 5%nat = Some (Stub.column 0 0 0).
Proof.
  split; [vm_compute; reflexivity|]. split; [reflexivity|].
  rewrite (heap_after_call4 (Stub.collaborators 0 0 0) 2 [0; 1; 2; 5]%nat
             5%nat (Stub.column 0 0 0) 0%R 0%R 0%R);
    [|now apply stub_valid_call4 | reflexivity].
  rewrite lookup_insert_eq. unfold with_data, kilometres, Stub.column.
  cbn [mxGetClassID mxIsComplex mxGetM mxGetN ddiv of_int R_Double].
  do 2 f_equal. replace (0 / 1000)%R with 0%R by lra. reflexivity.
Qed.

(** ** The Earth-orientation lookup *)

Section Lookup.
Context {D : Type} `{Double D} (E : Externals D).

Lemma getDeltaTFromEOP_run TT1 TT2 tai1 tai2 status utc1 utc2 (s : state D) :
  iauTttai E TT1 TT2 = (0, (tai1, tai2)) ->
  iauTaiutc E tai1 tai2 = (status, (utc1, utc2)) ->
  getDeltaTFromEOP E TT1 TT2 s =
  if status =? -1
  then (Fatal "Unacceptable date entered",
        add_events s (conversion_events TT1 TT2 tai1 tai2))
  else
    let s' := add_events s (lookup_events TT1 TT2 tai1 tai2 status utc1 utc2) in
    match getEOP E (doubleMat2Matlab E [utc1] 1 1)
                   (doubleMat2Matlab E [utc2] 1 1) with
    | inl msg => (Fatal msg, s')
    | inr (_, _, _, retVals3) =>
        match scalarOf E retVals3 with
        | inl msg => (Fatal msg, s')
        | inr deltaT => (Ok deltaT, s')
        end
    end.
Proof.
  intros Htai Hutc. unfold getDeltaTFromEOP, lookup_events, conversion_events.
  rewrite bind_emit, Htai. cbv beta iota. change (0 =? 0) with true. cbv iota.
  rewrite bind_ret_l, bind_emit, add_events_app, Hutc. cbv beta iota zeta.
  assert (Htail : forall evs,
    bind (mexCallMATLAB_getEOP E utc1 utc2)
      (fun retVals => let '(_, _, _, retVals3) := retVals in
         bind (getDoubleFromMatlab E retVals3) (fun deltaT => ret deltaT))
      (add_events s evs) =
    match getEOP E (doubleMat2Matlab E [utc1] 1 1)
                   (doubleMat2Matlab E [utc2] 1 1) with
    | inl msg => (Fatal msg, add_events s (evs ++ [Call GetEOP [utc1; utc2]]))
    | inr (_, _, _, retVals3) =>
        match scalarOf E retVals3 with
        | inl msg => (Fatal msg, add_events s (evs ++ [Call GetEOP [utc1; utc2]]))
        | inr deltaT => (Ok deltaT, add_events s (evs ++ [Call GetEOP [utc1; utc2]]))
        end
    end).
  { intros evs. unfold mexCallMATLAB_getEOP.
    rewrite bind_bind, bind_emit, add_events_app.
    destruct (getEOP E _ _) as [msg|[[[r0 r1] r2] r3]]; [reflexivity|].
    rewrite bind_ret_l. unfold getDoubleFromMatlab.
    destruct (scalarOf E r3); reflexivity. }
  destruct (status =? -1) eqn:Hm1.
  - apply Z.eqb_eq in Hm1. subst status. reflexivity.
  - destruct (status =? 1) eqn:H1.
    + unfold mexWarnMsgTxt. rewrite bind_emit, add_events_app, Htail.
      now rewrite <- !app_assoc.
    + rewrite bind_ret_l, Htail. reflexivity.
Qed.

Lemma getDeltaTFromEOP_no_TAI TT1 TT2 status tai1 tai2 (s : state D) :
  iauTttai E TT1 TT2 = (status, (tai1, tai2)) -> status <> 0 ->
  getDeltaTFromEOP E TT1 TT2 s =
  (Fatal "An error occurred computing TAI.",
   add_events s [Call IauTttai [TT1; TT2]]).
Proof.
  intros Htai Hst. unfold getDeltaTFromEOP.
  rewrite bind_emit, Htai. cbv beta iota.
  apply Z.eqb_neq in Hst. rewrite Hst. reflexivity.
Qed.

Lemma getDeltaTFromEOP_Ok_inv TT1 TT2 deltaT (s s1 : state D) :
  getDeltaTFromEOP E TT1 TT2 s = (Ok deltaT, s1) ->
  looked_up E TT1 TT2 = Some deltaT
  /\ s1 = add_events s (lookup_events_at E TT1 TT2).
Proof.
  unfold looked_up, lookup_events_at.
  destruct (iauTttai E TT1 TT2) as [status1 [tai1 tai2]] eqn:Htai.
  destruct (iauTaiutc E tai1 tai2) as [status2 [utc1 utc2]] eqn:Hutc.
  destruct (status1 =? 0) eqn:H1.
  - apply Z.eqb_eq in H1. subst status1.
    rewrite (getDeltaTFromEOP_run _ _ _ _ _ _ _ _ Htai Hutc).
    destruct (status2 =? -1); [discriminate|]. cbv zeta. cbn [andb negb].
    destruct (getEOP E _ _) as [msg|[[[r0 r1] r2] r3]]; [discriminate|].
    destruct (scalarOf E r3); [discriminate|].
    intros Heq. injection Heq as <- <-. auto.
  - apply Z.eqb_neq in H1.
    rewrite (getDeltaTFromEOP_no_TAI _ _ _ _ _ _ Htai H1). discriminate.
Qed.

(** C7: [getDeltaTFromEOP] converts the TT date to TAI with [iauTttai] and
    the TAI date to UTC with [iauTaiutc], calls [getEOP] on that UTC date,
    and returns the scalar read from the fourth output, the TT-UT1 offset,
    whatever its value.  A failed conversion to TAI and an unacceptable
    date (status -1) are fatal, and [getEOP] is then not called; a
    dubious year (status 1) adds a warning to the events of the lookup and
    nothing else. *)
Theorem getDeltaTFromEOP_contract TT1 TT2 (s : state D) :
  (forall status tai1 tai2,
      iauTttai E TT1 TT2 = (status, (tai1, tai2)) -> status <> 0 ->
      getDeltaTFromEOP E TT1 TT2 s =
      (Fatal "An error occurred computing TAI.",
       add_events s [Call IauTttai [TT1; TT2]]))
  /\ (forall tai1 tai2 status utc1 utc2,
      iauTttai E TT1 TT2 = (0, (tai1, tai2)) ->
      iauTaiutc E tai1 tai2 = (status, (utc1, utc2)) ->
      (status = -1 ->
       getDeltaTFromEOP E TT1 TT2 s =
       (Fatal "Unacceptable date entered",
        add_events s (conversion_events TT1 TT2 tai1 tai2)))
      /\ (status <> -1 ->
          forall r0 r1 r2 r3 deltaT,
            getEOP E (doubleMat2Matlab E [utc1] 1 1)
                     (doubleMat2Matlab E [utc2] 1 1) = inr (r0, r1, r2, r3) ->
            scalarOf E r3 = inr deltaT ->
            getDeltaTFromEOP E TT1 TT2 s =
            (Ok deltaT,
             add_events s
               (lookup_events TT1 TT2 tai1 tai2 status utc1 utc2)))
      /\ lookup_events TT1 TT2 tai1 tai2 1 utc1 utc2 =
         [Call IauTttai [TT1; TT2]; Call IauTaiutc [tai1; tai2];
          Warn "Dubious Date entered."; Call GetEOP [utc1; utc2]]).
Proof.
  split.
  - intros status tai1 tai2 Htai Hst. now apply (getDeltaTFromEOP_no_TAI _ _ status tai1 tai2).
  - intros tai1 tai2 status utc1 utc2 Htai Hutc. split; [|split].
    + intros ->. now rewrite (getDeltaTFromEOP_run _ _ _ _ _ _ _ _ Htai Hutc).
    + intros Hst r0 r1 r2 r3 deltaT Heop Hscalar.
      rewrite (getDeltaTFromEOP_run _ _ _ _ _ _ _ _ Htai Hutc).
      apply Z.eqb_neq in Hst. rewrite Hst. cbv zeta. now rewrite Heop, Hscalar.
    + reflexivity.
Qed.

End Lookup.

(** A lookup in a dubious year, and one at an unacceptable date. *)
Lemma getDeltaTFromEOP_contract_witness :
  getDeltaTFromEOP (Stub.collaborators 0 0 1) 2451545%R 0%R Stub.workspace =
    (Ok 69%R,
     add_events Stub.workspace
       (lookup_events 2451545%R 0%R 2451545%R (0 - 32184 / 86400000)%R 1
          2451545%R (0 - 32184 / 86400000 - 37 / 86400)%R))
  /\ getDeltaTFromEOP (Stub.collaborators 0 0 (-1)) 2451545%R 0%R Stub.workspace =
    (Fatal "Unacceptable date entered",
     add_events Stub.workspace
       (conversion_events 2451545%R 0%R 2451545%R (0 - 32184 / 86400000)%R)).
Proof.
  split.
  - destruct (getDeltaTFromEOP_contract (Stub.collaborators 0 0 1)
                2451545%R 0%R Stub.workspace) as [_ Hconv].
    destruct (Hconv 2451545%R (0 - 32184 / 86400000)%R 1 2451545%R
                (0 - 32184 / 86400000 - 37 / 86400)%R eq_refl eq_refl)
      as [_ [Hok _]].
    apply (Hok ltac:(discriminate) (Stub.column 0 0 0) (Stub.column 0 0 0)
             (Stub.scalar 0) (Stub.scalar 69) 69%R eq_refl eq_refl).
  - destruct (getDeltaTFromEOP_contract (Stub.collaborators 0 0 (-1))
                2451545%R 0%R Stub.workspace) as [_ Hconv].
    destruct (Hconv 2451545%R (0 - 32184 / 86400000)%R (-1) 2451545%R
                (0 - 32184 / 86400000 - 37 / 86400)%R eq_refl eq_refl)
      as [Hfatal _].
    now apply Hfatal.
Defined.

(** ** One iteration *)

Section Iteration.
Context {D : Type} `{Double D} (E : Externals D).

(** The run of the loop body once the offset of this iteration is known. *)
Lemma iteration_run iterateDeltaT TDB1 TDB2 elon u v TT1 TT2 dt0 dt
    (s s1 : state D) :
  (if iterateDeltaT : bool then getDeltaTFromEOP E TT1 TT2 else ret dt0) s
  = (Ok dt, s1) ->
  iteration E iterateDeltaT TDB1 TDB2 elon u v (TT1, TT2, dt0) s =
  if fst (iauTtut1 E TT1 TT2 dt) =? -1
  then (Fatal "Unacceptable date provided.",
        add_events s1 [Call IauTtut1 [TT1; TT2; dt]])
  else
    let s' := add_events s1
                (iteration_events E TDB1 TDB2 elon u v TT1 TT2 dt) in
    let '(retVal, (TT1', TT2')) := refined E TDB1 TDB2 elon u v TT1 TT2 dt in
    if retVal =? 0 then (Ok (TT1', TT2', dt), s')
    else (Fatal intermediate_error, s').
Proof.
  intros Hdt. unfold iteration, iteration_events, refined.
  rewrite (bind_Ok _ _ _ _ _ Hdt), bind_emit.
  destruct (iauTtut1 E TT1 TT2 dt) as [retVal [Jul1UT1 Jul2UT1]].
  cbn [fst]. destruct (retVal =? -1) eqn:Hm1; [reflexivity|].
  cbv zeta.
  destruct (retVal =? 1).
  - unfold mexWarnMsgTxt.
    rewrite bind_emit, add_events_app, bind_emit, add_events_app,
      bind_emit, add_events_app.
    rewrite <- !app_assoc.
    destruct (iauTdbtt E TDB1 TDB2 _) as [retVal' [TT1' TT2']].
    destruct (retVal' =? 0); reflexivity.
  - rewrite bind_ret_l, bind_emit, add_events_app, bind_emit, add_events_app.
    rewrite <- !app_assoc.
    destruct (iauTdbtt E TDB1 TDB2 _) as [retVal' [TT1' TT2']].
    destruct (retVal' =? 0); reflexivity.
Qed.

(** C3: in an iteration whose offset is [dt] (supplied, or just looked up),
    and whatever the rest of the call is: when [iauTtut1] reports an
    unacceptable date (-1) the call aborts with a fatal error right after
    that call; when it reports a dubious year (1) the warning is emitted
    between the calls of [iauTtut1] and [iauDtdb], and the call goes on with
    the refined E estimate if [iauTdbtt] succeeds; and when [iauTdbtt]
    returns a nonzero status the call aborts with a fatal error. *)
Theorem iteration_error_handling {B} iterateDeltaT TDB1 TDB2 elon u v
    TT1 TT2 dt0 dt (rest : D * D * D -> M D B) (s s1 : state D) :
  (if iterateDeltaT : bool then getDeltaTFromEOP E TT1 TT2 else ret dt0) s
  = (Ok dt, s1) ->
  let body := iteration E iterateDeltaT TDB1 TDB2 elon u v (TT1, TT2, dt0) in
  let status := fst (iauTtut1 E TT1 TT2 dt) in
  let '(status', (TT1', TT2')) := refined E TDB1 TDB2 elon u v TT1 TT2 dt in
  let s' := add_events s1 (iteration_events E TDB1 TDB2 elon u v TT1 TT2 dt) in
  (status = -1 ->
   bind body rest s =
   (Fatal "Unacceptable date provided.",
    add_events s1 [Call IauTtut1 [TT1; TT2; dt]]))
  /\ (status = 1 ->
      (exists UT1Frac deltaT,
          iteration_events E TDB1 TDB2 elon u v TT1 TT2 dt =
          [Call IauTtut1 [TT1; TT2; dt]; Warn dubious_year;
           Call IauDtdb [TDB1; TDB2; UT1Frac; elon; u; v];
           Call IauTdbtt [TDB1; TDB2; deltaT]])
      /\ (status' = 0 -> bind body rest s = rest (TT1', TT2', dt) s'))
  /\ (status <> -1 -> status' <> 0 ->
      bind body rest s = (Fatal intermediate_error, s')).
Proof.
  intros Hdt body status. unfold body, status.
  pose proof (iteration_run iterateDeltaT TDB1 TDB2 elon u v TT1 TT2 dt0 dt
                s s1 Hdt) as Hrun.
  destruct (refined E TDB1 TDB2 elon u v TT1 TT2 dt) as [status' [TT1' TT2']].
  cbv zeta in *. split; [|split].
  - intros Hst. rewrite Hst in Hrun. cbn [Z.eqb] in Hrun.
    now rewrite (bind_Fatal _ _ _ _ _ Hrun).
  - intros Hst. split.
    + unfold iteration_events.
      destruct (iauTtut1 E TT1 TT2 dt) as [retVal [Jul1UT1 Jul2UT1]].
      cbn [fst] in Hst. subst retVal. cbn [Z.eqb Pos.eqb]. eauto.
    + intros ->. rewrite Hst in Hrun. cbn [Z.eqb Pos.eqb] in Hrun.
      now rewrite (bind_Ok _ _ _ _ _ Hrun).
  - intros Hst Hst'. apply Z.eqb_neq in Hst, Hst'. rewrite Hst, Hst' in Hrun.
    now rewrite (bind_Fatal _ _ _ _ _ Hrun).
Qed.

Lemma iteration_Ok_inv iterateDeltaT TDB1 TDB2 elon u v TT1 TT2 dt0
    TT1' TT2' dt (s s' : state D) :
  iteration E iterateDeltaT TDB1 TDB2 elon u v (TT1, TT2, dt0) s
  = (Ok (TT1', TT2', dt), s') ->
  offset_of E iterateDeltaT dt0 TT1 TT2 = Some dt
  /\ fst (iauTtut1 E TT1 TT2 dt) <> -1
  /\ refined E TDB1 TDB2 elon u v TT1 TT2 dt = (0, (TT1', TT2'))
  /\ s' = add_events s (offset_events E iterateDeltaT TT1 TT2
                        ++ iteration_events E TDB1 TDB2 elon u v TT1 TT2 dt).
Proof.
  intros Hrun.
  assert (Hstep : exists d s1,
             (if iterateDeltaT then getDeltaTFromEOP E TT1 TT2 else ret dt0) s
             = (Ok d, s1)).
  { unfold iteration in Hrun.
    apply bind_Ok_inv in Hrun as (d & s1 & Hd & _). eauto. }
  destruct Hstep as (d & s1 & Hd).
  rewrite (iteration_run _ _ _ _ _ _ _ _ _ _ _ _ Hd) in Hrun.
  destruct (fst (iauTtut1 E TT1 TT2 d) =? -1) eqn:Hm1; [discriminate|].
  cbv zeta in Hrun.
  destruct (refined E TDB1 TDB2 elon u v TT1 TT2 d) as [retVal [T1 T2]] eqn:Href.
  destruct (retVal =? 0) eqn:H0; [|discriminate].
  injection Hrun as <- <- <- <-.
  apply Z.eqb_eq in H0. subst retVal. apply Z.eqb_neq in Hm1.
  assert (Hoff : offset_of E iterateDeltaT dt0 TT1 TT2 = Some d
                 /\ s1 = add_events s (offset_events E iterateDeltaT TT1 TT2)).
  { unfold offset_of, offset_events. destruct iterateDeltaT.
    - now apply getDeltaTFromEOP_Ok_inv.
    - injection Hd as <- <-. now rewrite add_events_nil. }
  destruct Hoff as [Hoff ->]. rewrite add_events_app. rewrite Href. auto.
Qed.

End Iteration.

(** An iteration at an unacceptable date, one in a dubious year, and one
    whose final conversion fails; the offset 64 s was supplied. *)
Lemma iteration_error_handling_witness :
  let s := Stub.workspace in
  let run E := bind (iteration E false 2451545%R 0%R 0%R 0%R 0%R
                       (2451545%R, 0%R, 64%R)) ret s in
  fst (run (Stub.collaborators (-1) 0 0)) = Fatal "Unacceptable date provided."
  /\ fst (run (Stub.collaborators 1 0 0)) =
     Ok (2451545%R, (0 - 0 / 86400)%R, 64%R)
  /\ fst (run (Stub.collaborators 0 5 0)) = Fatal intermediate_error.
Proof.
  intros s run. unfold run. split; [|split].
  - pose proof (iteration_error_handling (Stub.collaborators (-1) 0 0) false
                  2451545%R 0%R 0%R 0%R 0%R 2451545%R 0%R 64%R 64%R ret s s
                  eq_refl) as Hit.
    cbv zeta in Hit. cbn [refined Stub.collaborators iauTtut1 iauTdbtt fst] in Hit.
    destruct Hit as [Hfatal _]. now rewrite Hfatal.
  - pose proof (iteration_error_handling (Stub.collaborators 1 0 0) false
                  2451545%R 0%R 0%R 0%R 0%R 2451545%R 0%R 64%R 64%R ret s s
                  eq_refl) as Hit.
    cbv zeta in Hit. cbn [refined Stub.collaborators iauTtut1 iauTdbtt iauDtdb fst] in Hit.
    destruct Hit as [_ [Hdubious _]].
    destruct (Hdubious eq_refl) as [_ Hok]. now rewrite (Hok eq_refl).
  - pose proof (iteration_error_handling (Stub.collaborators 0 5 0) false
                  2451545%R 0%R 0%R 0%R 0%R 2451545%R 0%R 64%R 64%R ret s s
                  eq_refl) as Hit.
    cbv zeta in Hit. cbn [refined Stub.collaborators iauTtut1 iauTdbtt fst] in Hit.
    destruct Hit as [_ [_ Hfatal]]. now rewrite Hfatal.
Defined.

(** ** The structure of a call *)

Section Call.
Context {D : Type} `{Double D} (E : Externals D).

Lemma bind_ext {A B} (m : M D A) (k1 k2 : A -> M D B) s :
  (forall a s1, m s = (Ok a, s1) -> k1 a s1 = k2 a s1) ->
  bind m k1 s = bind m k2 s.
Proof.
  intros Hk. unfold bind.
  destruct (m s) as [[a|msg|] s1]; [now apply Hk | reflexivity | reflexivity].
Qed.

#[local] Instance unchanged_frame : Frame (@unchanged D).
Proof. split; unfold unchanged; congruence. Qed.

Lemma read_unchanged prhs i (s : state D) :
  snd (bind (deref prhs i) (fun a => getDoubleFromMatlab E a) s) = s.
Proof.
  apply (keeps_bind unchanged).
  - apply keeps_deref. exact _.
  - intros a. apply keeps_getDoubleFromMatlab. exact _.
Qed.

Lemma delta_argument_unchanged nrhs prhs (s : state D) :
  snd (delta_argument E nrhs prhs s) = s.
Proof. apply (keeps_delta_argument E unchanged). Qed.

(** The rest of [mexFunction] once the counts are accepted. *)
Lemma mexFunction_accepted nlhs prhs (s : state D) :
  (2 <= length prhs <= 4)%nat -> nlhs <= 2 ->
  mexFunction E nlhs prhs s =
  bind (bind (deref prhs 0) (fun a => getDoubleFromMatlab E a)) (fun TDB1 =>
  bind (bind (deref prhs 1) (fun a => getDoubleFromMatlab E a)) (fun TDB2 =>
  bind (delta_argument E (Z.of_nat (length prhs)) prhs) (fun delta =>
  let '(iterateDeltaT, deltaTTUT1) := delta in
  bind (clock_location E (Z.of_nat (length prhs)) prhs) (fun cyl =>
  let '(u, v, elon) := cyl in
  bind (for_loop 2 (iteration E iterateDeltaT TDB1 TDB2 elon u v)
          (TDB1, TDB2, deltaTTUT1)) (fun vars =>
  let '(TT1, TT2, _) := vars in
  return_outputs E nlhs TT1 TT2))))) s.
Proof.
  intros Hin Hout. unfold mexFunction.
  assert (H1 : ((Z.of_nat (length prhs) <? 2) || (Z.of_nat (length prhs) >? 4))
               = false).
  { apply orb_false_iff. split; [apply Z.ltb_ge; lia|].
    rewrite Z.gtb_ltb. apply Z.ltb_ge. lia. }
  assert (H2 : (nlhs >? 2) = false) by (rewrite Z.gtb_ltb; apply Z.ltb_ge; lia).
  now rewrite H1, H2.
Qed.

(** A call with rejected counts does not end well. *)
Lemma mexFunction_rejected nlhs prhs (s : state D) :
  ~ ((2 <= length prhs <= 4)%nat /\ nlhs <= 2) ->
  exists msg, mexFunction E nlhs prhs s = (Fatal msg, s).
Proof.
  intros Hbad. unfold mexFunction.
  destruct (_ || _) eqn:H1; [eauto|].
  destruct (nlhs >? 2) eqn:H2; [eauto|].
  exfalso. apply Hbad. apply orb_false_iff in H1 as [Hlo Hhi].
  apply Z.ltb_ge in Hlo. rewrite Z.gtb_ltb in Hhi, H2.
  apply Z.ltb_ge in Hhi, H2. lia.
Qed.

(** The two iterations of a loop that ends well. *)
Lemma for_loop_2_Ok {A} (body : A -> M D A) a a2 (s s2 : state D) :
  for_loop 2 body a s = (Ok a2, s2) ->
  exists a1 s1, body a s = (Ok a1, s1) /\ body a1 s1 = (Ok a2, s2).
Proof.
  cbn [for_loop]. intros Hloop.
  apply bind_Ok_inv in Hloop as (a1 & s1 & Hfirst & Hrest).
  apply bind_Ok_inv in Hrest as (a2' & s2' & Hsecond & Hret).
  injection Hret as -> ->. eauto.
Qed.

Lemma return_outputs_run nlhs TT1 TT2 (s : state D) :
  return_outputs E nlhs TT1 TT2 s = (Ok tt, with_outputs E nlhs TT1 TT2 s).
Proof.
  unfold return_outputs, with_outputs, bind, set_plhs, ret.
  destruct (nlhs >? 1); [reflexivity|]. cbn. now destruct s.
Qed.

(** Everything a call that ends well went through. *)
Lemma mexFunction_Ok_inv nlhs prhs (s s' : state D) :
  mexFunction E nlhs prhs s = (Ok tt, s') ->
  exists TDB1 TDB2 iterateDeltaT deltaTTUT1 u v elon s0 TT1 TT2 dt s2,
    (2 <= length prhs <= 4)%nat /\ nlhs <= 2
    /\ bind (deref prhs 0) (fun a => getDoubleFromMatlab E a) s = (Ok TDB1, s)
    /\ bind (deref prhs 1) (fun a => getDoubleFromMatlab E a) s = (Ok TDB2, s)
    /\ delta_argument E (Z.of_nat (length prhs)) prhs s
       = (Ok (iterateDeltaT, deltaTTUT1), s)
    /\ clock_location E (Z.of_nat (length prhs)) prhs s = (Ok (u, v, elon), s0)
    /\ for_loop 2 (iteration E iterateDeltaT TDB1 TDB2 elon u v)
         (TDB1, TDB2, deltaTTUT1) s0 = (Ok (TT1, TT2, dt), s2)
    /\ s' = with_outputs E nlhs TT1 TT2 s2.
Proof.
  intros Hrun.
  destruct (decide ((2 <= length prhs <= 4)%nat /\ nlhs <= 2)) as [[Hin Hout]|Hbad].
  2:{ destruct (mexFunction_rejected nlhs prhs s Hbad) as [msg Hmsg].
      congruence. }
  rewrite (mexFunction_accepted _ _ _ Hin Hout) in Hrun.
  apply bind_Ok_inv in Hrun as (TDB1 & s1 & HTDB1 & Hrun).
  assert (s1 = s) as ->.
  { pose proof (read_unchanged prhs 0 s) as Hs. now rewrite HTDB1 in Hs. }
  apply bind_Ok_inv in Hrun as (TDB2 & s1 & HTDB2 & Hrun).
  assert (s1 = s) as ->.
  { pose proof (read_unchanged prhs 1 s) as Hs. now rewrite HTDB2 in Hs. }
  apply bind_Ok_inv in Hrun as ([iterateDeltaT deltaTTUT1] & s1 & Hdelta & Hrun).
  assert (s1 = s) as ->.
  { pose proof (delta_argument_unchanged (Z.of_nat (length prhs)) prhs s) as Hs.
    now rewrite Hdelta in Hs. }
  apply bind_Ok_inv in Hrun as ([[u v] elon] & s0 & Hclock & Hrun).
  apply bind_Ok_inv in Hrun as ([[TT1 TT2] dt] & s2 & Hloop & Hrun).
  rewrite return_outputs_run in Hrun. injection Hrun as <-.
  exists TDB1, TDB2, iterateDeltaT, deltaTTUT1, u, v, elon, s0, TT1, TT2, dt, s2.
  repeat split; auto; lia.
Qed.

End Call.

(** ** The two refinements *)

Section Refinements.
Context {D : Type} `{Double D} (E : Externals D).

Lemma calls_app f (evs1 evs2 : list (event D)) :
  calls f (evs1 ++ evs2) = (calls f evs1 + calls f evs2)%nat.
Proof.
  induction evs1 as [|[msg|g args] evs1 IH]; cbn [calls app]; [reflexivity|exact IH|].
  rewrite IH. lia.
Qed.











End Refinements.


(** ** Complete result or abort *)

Section Outputs.
Context {D : Type} `{Double D} (E : Externals D).

#[local] Instance same_plhs_frame : Frame (@same_plhs D).
Proof. split; unfold same_plhs; congruence. Qed.

#[local] Instance same_plhs_core : CoreEvents (@same_plhs D).
Proof. intros e s _. reflexivity. Qed.

#[local] Instance same_plhs_lookup : LookupEvents (@same_plhs D).
Proof. intros e s _. reflexivity. Qed.

#[local] Instance same_plhs_heap : HeapWrites (@same_plhs D).
Proof. intros s h. reflexivity. Qed.

Lemma well_or_silent_bind {A B} (m : M D A) (k : A -> M D B) s :
  plhs (snd (m s)) = plhs s ->
  (forall a s1, m s = (Ok a, s1) -> well_or_silent (k a) s1) ->
  well_or_silent (bind m k) s.
Proof.
  intros Hm Hk. unfold well_or_silent, bind in *.
  destruct (m s) as [[a|msg|] s1] eqn:Hms; cbn [snd] in *; [|now right|now right].
  destruct (Hk a s1 eq_refl) as [Hok | Hsilent]; [now left|].
  right. congruence.
Qed.

Lemma mexFunction_well_or_silent nlhs prhs (s : state D) :
  well_or_silent (mexFunction E nlhs prhs) s.
Proof.
  destruct (decide ((2 <= length prhs <= 4)%nat /\ nlhs <= 2)) as [[Hin Hout]|Hbad].
  2:{ destruct (mexFunction_rejected E nlhs prhs s Hbad) as [msg Hmsg].
      right. now rewrite Hmsg. }
  unfold well_or_silent. rewrite (mexFunction_accepted E _ _ _ Hin Hout).
  apply well_or_silent_bind.
  { apply (keeps_bind same_plhs);
      [apply keeps_deref | intros; apply keeps_getDoubleFromMatlab]; exact _. }
  intros TDB1 s1 _. apply well_or_silent_bind.
  { apply (keeps_bind same_plhs);
      [apply keeps_deref | intros; apply keeps_getDoubleFromMatlab]; exact _. }
  intros TDB2 s2 _. apply well_or_silent_bind.
  { apply (keeps_delta_argument E same_plhs). }
  intros [iterateDeltaT deltaTTUT1] s3 _. apply well_or_silent_bind.
  { apply (keeps_clock_location E same_plhs). }
  intros [[u v] elon] s4 _. apply well_or_silent_bind.
  { apply (keeps_for_loop same_plhs).
    intros a. apply keeps_iteration; exact _. }
  intros [[TT1 TT2] dt] s5 _. left. rewrite return_outputs_run. now exists tt.
Qed.

Lemma defined_ret {A} (a : A) : defined (D := D) (ret a).
Proof. intros s. discriminate. Qed.

Lemma defined_mexErrMsgTxt {A} msg : defined (@mexErrMsgTxt D A msg).
Proof. intros s. discriminate. Qed.

Lemma defined_emit (e : event D) : defined (emit e).
Proof. intros s. discriminate. Qed.

Lemma defined_bind {A B} (m : M D A) (k : A -> M D B) :
  defined m -> (forall a, defined (k a)) -> defined (bind m k).
Proof.
  intros Hm Hk s. unfold bind. specialize (Hm s).
  destruct (m s) as [[a|msg|] s1]; cbn [fst] in *;
    [apply Hk | discriminate | contradiction].
Qed.

Lemma defined_getDoubleFromMatlab a : defined (getDoubleFromMatlab E a).
Proof.
  unfold getDoubleFromMatlab.
  destruct (scalarOf E a); [apply defined_mexErrMsgTxt | apply defined_ret].
Qed.

Lemma defined_getDeltaTFromEOP TT1 TT2 : defined (getDeltaTFromEOP E TT1 TT2).
Proof.
  unfold getDeltaTFromEOP.
  apply defined_bind; [apply defined_emit | intros _].
  destruct (iauTttai E TT1 TT2) as [retVal [JulUTC0 JulUTC1]].
  apply defined_bind.
  { destruct (retVal =? 0); [apply defined_ret | apply defined_mexErrMsgTxt]. }
  intros _. apply defined_bind; [apply defined_emit | intros _].
  destruct (iauTaiutc E JulUTC0 JulUTC1) as [retVal' [utc1 utc2]].
  apply defined_bind.
  { destruct (retVal' =? 1); [apply defined_emit|].
    destruct (retVal' =? -1); [apply defined_mexErrMsgTxt | apply defined_ret]. }
  intros _. apply defined_bind.
  { unfold mexCallMATLAB_getEOP. apply defined_bind; [apply defined_emit | intros _].
    destruct (getEOP E _ _); [apply defined_mexErrMsgTxt | apply defined_ret]. }
  intros [[[r0 r1] r2] r3].
  apply defined_bind; [apply defined_getDoubleFromMatlab | intros; apply defined_ret].
Qed.

Lemma defined_iteration iterateDeltaT TDB1 TDB2 elon u v vars :
  defined (iteration E iterateDeltaT TDB1 TDB2 elon u v vars).
Proof.
  destruct vars as [[TT1 TT2] deltaTTUT1]. unfold iteration.
  apply defined_bind.
  { destruct iterateDeltaT; [apply defined_getDeltaTFromEOP | apply defined_ret]. }
  intros dt. apply defined_bind; [apply defined_emit | intros _].
  destruct (iauTtut1 E TT1 TT2 dt) as [retVal [Jul1UT1 Jul2UT1]].
  apply defined_bind.
  { destruct (retVal =? -1); [apply defined_mexErrMsgTxt|].
    destruct (retVal =? 1); [apply defined_emit | apply defined_ret]. }
  intros _. apply defined_bind; [apply defined_emit | intros _].
  apply defined_bind; [apply defined_emit | intros _].
  destruct (iauTdbtt E TDB1 TDB2 _) as [retVal' [TT1' TT2']].
  destruct (retVal' =? 0); [apply defined_ret | apply defined_mexErrMsgTxt].
Qed.

Lemma defined_for_loop {A} n (body : A -> M D A) :
  (forall a, defined (body a)) -> forall a, defined (for_loop n body a).
Proof.
  intros Hbody. induction n as [|n IH]; intros a; cbn [for_loop].
  - apply defined_ret.
  - apply defined_bind; [apply Hbody | exact IH].
Qed.

Lemma defined_return_outputs nlhs TT1 TT2 :
  defined (return_outputs E nlhs TT1 TT2).
Proof. intros s. rewrite return_outputs_run. discriminate. Qed.

Lemma defined_bind_at {A B} (m : M D A) (k : A -> M D B) s :
  fst (m s) <> Undefined ->
  (forall a s1, m s = (Ok a, s1) -> fst (k a s1) <> Undefined) ->
  fst (bind m k s) <> Undefined.
Proof.
  intros Hm Hk. unfold bind.
  destruct (m s) as [[a|msg|] s1]; cbn [fst] in *;
    [now apply Hk | discriminate | contradiction].
Qed.

(** On a well-formed call the accesses to the arguments are defined. *)
Lemma deref_well_formed prhs i (s : state D) :
  well_formed prhs s -> (i < length prhs)%nat ->
  exists p a, prhs !! i = Some p /\ heap s !! p = Some a
              /\ Z.of_nat (length (mxGetData a)) = mxGetM a * mxGetN a.
Proof.
  intros Hwf Hi. destruct (lookup_lt_is_Some_2 prhs i Hi) as [p Hp].
  destruct (Hwf i p Hp) as (a & Ha & Hlen). eauto.
Qed.

Lemma read_defined prhs i (s : state D) :
  well_formed prhs s -> (i < length prhs)%nat ->
  fst (bind (deref prhs i) (fun a => getDoubleFromMatlab E a) s) <> Undefined.
Proof.
  intros Hwf Hi.
  destruct (deref_well_formed prhs i s Hwf Hi) as (p & a & Hp & Ha & _).
  rewrite (bind_Ok _ _ s a s (deref_eq _ _ _ _ _ Hp Ha)).
  apply defined_getDoubleFromMatlab.
Qed.

Lemma delta_argument_defined prhs (s : state D) :
  well_formed prhs s ->
  fst (delta_argument E (Z.of_nat (length prhs)) prhs s) <> Undefined.
Proof.
  intros Hwf. unfold delta_argument.
  destruct (Z.of_nat (length prhs) >? 2) eqn:Hgt.
  - apply Z.gtb_lt in Hgt.
    destruct (deref_well_formed prhs 2 s Hwf ltac:(lia)) as (p & a & Hp & Ha & _).
    rewrite (bind_Ok _ _ s (negb (mxIsEmpty a)) s);
      [|now rewrite (bind_Ok _ _ s a s (deref_eq _ _ _ _ _ Hp Ha))].
    destruct (negb (mxIsEmpty a)); [|discriminate].
    rewrite (bind_Ok _ _ s a s (deref_eq _ _ _ _ _ Hp Ha)).
    apply defined_bind; [apply defined_getDoubleFromMatlab | intros; apply defined_ret].
  - discriminate.
Qed.

Lemma clock_location_defined prhs (s : state D) :
  well_formed prhs s ->
  fst (clock_location E (Z.of_nat (length prhs)) prhs s) <> Undefined.
Proof.
  intros Hwf.
  destruct (Z.of_nat (length prhs) >? 3) eqn:Hgt.
  2:{ rewrite clock_location_absent; [discriminate|].
      rewrite Z.gtb_ltb in Hgt. apply Z.ltb_ge in Hgt. exact Hgt. }
  pose proof Hgt as Hgtb. apply Z.gtb_lt in Hgt.
  destruct (deref_well_formed prhs 3 s Hwf ltac:(lia)) as (p & a & Hp & Ha & Hlen).
  destruct (mxIsEmpty a) eqn:Hempty.
  { rewrite (clock_location_empty E _ _ p a s Hp Ha Hempty). discriminate. }
  destruct (negb (mxGetM a =? 3) || negb (mxGetN a =? 1)) eqn:Hdims.
  - unfold clock_location.
    rewrite (bind_Ok _ _ s true s).
    2:{ rewrite Hgtb, (bind_Ok _ _ s a s (deref_eq _ _ _ _ _ Hp Ha)).
        unfold ret. now rewrite Hempty. }
    rewrite (bind_Ok _ _ s a s (deref_eq _ _ _ _ _ Hp Ha)).
    rewrite Hdims. discriminate.
  - apply orb_false_iff in Hdims as [HM HN].
    apply negb_false_iff, Z.eqb_eq in HM, HN.
    destruct (realDoubleArrayError E a) as [msg|] eqn:Hreal.
    + unfold clock_location.
      rewrite (bind_Ok _ _ s true s).
      2:{ rewrite Hgtb, (bind_Ok _ _ s a s (deref_eq _ _ _ _ _ Hp Ha)).
          unfold ret. now rewrite Hempty. }
      rewrite (bind_Ok _ _ s a s (deref_eq _ _ _ _ _ Hp Ha)).
      rewrite HM, HN. cbn [Z.eqb Pos.eqb negb orb].
      rewrite bind_ret_l. unfold checkRealDoubleArray. rewrite Hreal.
      discriminate.
    + rewrite HM, HN in Hlen.
      destruct (mxGetData a) as [|x [|y [|z [|? ?]]]] eqn:Hdata;
        cbn in Hlen; try lia.
      assert (Hn : Z.of_nat (length prhs) > 3) by lia.
      rewrite (clock_location_supplied E _ _ p a x y z s Hn Hp Ha HM HN
                 Hreal Hdata).
      discriminate.
Qed.

Lemma mexFunction_defined nlhs prhs (s : state D) :
  well_formed prhs s -> fst (mexFunction E nlhs prhs s) <> Undefined.
Proof.
  intros Hwf.
  destruct (decide ((2 <= length prhs <= 4)%nat /\ nlhs <= 2)) as [[Hin Hout]|Hbad].
  2:{ destruct (mexFunction_rejected E nlhs prhs s Hbad) as [msg Hmsg].
      now rewrite Hmsg. }
  rewrite (mexFunction_accepted E _ _ _ Hin Hout).
  apply defined_bind_at; [apply read_defined; [exact Hwf | lia]|].
  intros TDB1 s1 HTDB1.
  assert (s1 = s) as ->.
  { pose proof (read_unchanged E prhs 0 s) as Hs. now rewrite HTDB1 in Hs. }
  apply defined_bind_at; [apply read_defined; [exact Hwf | lia]|].
  intros TDB2 s1 HTDB2.
  assert (s1 = s) as ->.
  { pose proof (read_unchanged E prhs 1 s) as Hs. now rewrite HTDB2 in Hs. }
  apply defined_bind_at; [now apply delta_argument_defined|].
  intros [iterateDeltaT deltaTTUT1] s1 Hdelta.
  assert (s1 = s) as ->.
  { pose proof (delta_argument_unchanged E (Z.of_nat (length prhs)) prhs s) as Hs.
    now rewrite Hdelta in Hs. }
  apply defined_bind_at; [now apply clock_location_defined|].
  intros [[u v] elon] s0 _.
  apply defined_bind.
  - apply defined_for_loop. intros a. apply defined_iteration.
  - intros [[TT1 TT2] dt]. apply defined_return_outputs.
Qed.

(** C4: on a well-formed call, either the call returns, and then both
    iterations of the loop have ended well in a state [s2] whose output
    slots are still those of the start, [plhs[0]] holds the [TT1] of the
    last iteration and, when a second output was requested, [plhs[1]]
    holds its [TT2]; or the call aborts with a fatal error and the output
    slots are those of the start. *)
Theorem complete_result_or_abort nlhs prhs (s : state D) :
  well_formed prhs s ->
  let r := mexFunction E nlhs prhs s in
  (exists iterateDeltaT TDB1 TDB2 elon u v deltaTTUT1 s0 TT1 TT2 dt s2,
      for_loop 2 (iteration E iterateDeltaT TDB1 TDB2 elon u v)
        (TDB1, TDB2, deltaTTUT1) s0 = (Ok (TT1, TT2, dt), s2)
      /\ plhs s2 = plhs s
      /\ fst r = Ok tt
      /\ plhs (snd r) =
         if nlhs >? 1
         then <[1%nat := doubleMat2Matlab E [TT2] 1 1]>
                (<[0%nat := doubleMat2Matlab E [TT1] 1 1]> (plhs s))
         else <[0%nat := doubleMat2Matlab E [TT1] 1 1]> (plhs s))
  \/ (exists msg, fst r = Fatal msg /\ plhs (snd r) = plhs s).
Proof.
  intros Hwf r.
  pose proof (mexFunction_defined nlhs prhs s Hwf) as Hdef.
  pose proof (mexFunction_well_or_silent nlhs prhs s) as Hsilent.
  fold r in Hdef. unfold well_or_silent in Hsilent. fold r in Hsilent.
  destruct r as [[[]|msg|] s'] eqn:Hr; cbn [fst snd] in *.
  - left. unfold r in Hr.
    apply mexFunction_Ok_inv in Hr
      as (TDB1 & TDB2 & iterateDeltaT & deltaTTUT1 & u & v & elon & s0 & TT1
          & TT2 & dt & s2 & _ & _ & _ & _ & _ & Hclock & Hloop & ->).
    exists iterateDeltaT, TDB1, TDB2, elon, u, v, deltaTTUT1, s0, TT1, TT2, dt, s2.
    assert (Hs0 : plhs s0 = plhs s).
    { pose proof (keeps_clock_location E same_plhs (Z.of_nat (length prhs))
                    prhs s) as Hk.
      now rewrite Hclock in Hk. }
    assert (Hs2 : plhs s2 = plhs s).
    { pose proof (keeps_for_loop same_plhs 2
                    (iteration E iterateDeltaT TDB1 TDB2 elon u v)
                    (fun a => keeps_iteration E same_plhs _ _ _ _ _ _ a)
                    (TDB1, TDB2, deltaTTUT1) s0) as Hk.
      rewrite Hloop in Hk. unfold same_plhs in Hk. cbn [snd] in Hk. congruence. }
    repeat split; auto.
    unfold with_outputs. cbn [plhs]. rewrite Hs2. reflexivity.
  - right. exists msg. split; [reflexivity|].
    destruct Hsilent as [[a Ha] | Hsilent]; [discriminate | exact Hsilent].
  - contradiction.
Qed.

End Outputs.

(** The example call is well formed. *)
Lemma stub_well_formed : well_formed [0; 1; 2; 3]%nat Stub.workspace.
Proof.
  intros i p Hp.
  destruct i as [|[|[|[|i]]]]; cbn in Hp; try discriminate;
    injection Hp as <-; eexists; (split; [reflexivity|]); reflexivity.
Qed.

Lemma complete_result_or_abort_witness :
  let E := Stub.collaborators 0 0 0 in
  let s := Stub.workspace in
  let r := mexFunction E 2 [0; 1; 2; 3]%nat s in
  (exists iterateDeltaT TDB1 TDB2 elon u v deltaTTUT1 s0 TT1 TT2 dt s2,
      for_loop 2 (iteration E iterateDeltaT TDB1 TDB2 elon u v)
        (TDB1, TDB2, deltaTTUT1) s0 = (Ok (TT1, TT2, dt), s2)
      /\ plhs s2 = plhs s
      /\ fst r = Ok tt
      /\ plhs (snd r) =
         <[1%nat := doubleMat2Matlab E [TT2] 1 1]>
           (<[0%nat := doubleMat2Matlab E [TT1] 1 1]> (plhs s)))
  \/ (exists msg, fst r = Fatal msg /\ plhs (snd r) = plhs s).
Proof.
  exact (complete_result_or_abort (Stub.collaborators 0 0 0) 2
           [0; 1; 2; 3]%nat Stub.workspace stub_well_formed).
Defined.

(** ** A supplied offset *)

Section Supplied.
Context {D : Type} `{Double D} (E : Externals D).

#[local] Instance no_lookup_frame : Frame (@no_lookup D).
Proof.
  split.
  - intros s. exists []. now rewrite app_nil_r.
  - intros s1 s2 s3 (evs1 & H1 & HF1) (evs2 & H2 & HF2).
    exists (evs1 ++ evs2). rewrite H2, H1, app_assoc. split; [reflexivity|].
    now apply Forall_app.
Qed.

#[local] Instance no_lookup_core : CoreEvents (@no_lookup D).
Proof. intros e s He. exists [e]. split; [reflexivity | now constructor]. Qed.

#[local] Instance no_lookup_heap : HeapWrites (@no_lookup D).
Proof. intros s h. exists []. cbn. now rewrite app_nil_r. Qed.

#[local] Instance no_lookup_outputs : OutputWrites (@no_lookup D).
Proof. intros s o. exists []. cbn. now rewrite app_nil_r. Qed.

(** With a non-empty third argument, lines 93-99 clear [iterateDeltaT]. *)
Lemma delta_argument_supplied_inv prhs p a iterateDeltaT deltaTTUT1
    (s s' : state D) :
  prhs !! 2%nat = Some p -> heap s !! p = Some a -> mxIsEmpty a = false ->
  delta_argument E (Z.of_nat (length prhs)) prhs s
  = (Ok (iterateDeltaT, deltaTTUT1), s') ->
  iterateDeltaT = false.
Proof.
  intros Hp Ha Hne. unfold delta_argument.
  assert (Hgt : (Z.of_nat (length prhs) >? 2) = true).
  { apply Z.gtb_lt. apply lookup_lt_Some in Hp. lia. }
  rewrite Hgt.
  rewrite (bind_Ok _ _ s true s);
    [|rewrite (bind_Ok _ _ s a s (deref_eq _ _ _ _ _ Hp Ha));
      unfold ret; now rewrite Hne].
  rewrite (bind_Ok _ _ s a s (deref_eq _ _ _ _ _ Hp Ha)).
  unfold getDoubleFromMatlab.
  destruct (scalarOf E a); [discriminate|].
  rewrite bind_ret_l. intros Heq. now injection Heq as <- _ _.
Qed.

(** The run does not depend on the Earth-orientation source. *)
Lemma getEOP_irrelevant g nlhs prhs p a (s : state D) :
  prhs !! 2%nat = Some p -> heap s !! p = Some a -> mxIsEmpty a = false ->
  mexFunction (with_getEOP E g) nlhs prhs s = mexFunction E nlhs prhs s.
Proof.
  intros Hp Ha Hne. unfold mexFunction.
  destruct (_ || _); [reflexivity|].
  destruct (nlhs >? 2); [reflexivity|].
  change (getDoubleFromMatlab (with_getEOP E g)) with (getDoubleFromMatlab E).
  change (delta_argument (with_getEOP E g)) with (delta_argument E).
  change (clock_location (with_getEOP E g)) with (clock_location E).
  apply bind_ext. intros TDB1 s1 HTDB1.
  assert (s1 = s) as ->.
  { pose proof (read_unchanged E prhs 0 s) as Hs. now rewrite HTDB1 in Hs. }
  apply bind_ext. intros TDB2 s1 HTDB2.
  assert (s1 = s) as ->.
  { pose proof (read_unchanged E prhs 1 s) as Hs. now rewrite HTDB2 in Hs. }
  apply bind_ext. intros [iterateDeltaT deltaTTUT1] s1 Hdelta.
  rewrite (delta_argument_supplied_inv _ _ _ _ _ _ _ Hp Ha Hne Hdelta).
  reflexivity.
Qed.

(** The run makes no call of the lookup. *)
Lemma supplied_no_lookup nlhs prhs p a (s : state D) :
  prhs !! 2%nat = Some p -> heap s !! p = Some a -> mxIsEmpty a = false ->
  no_lookup s (snd (mexFunction E nlhs prhs s)).
Proof.
  intros Hp Ha Hne.
  destruct (decide ((2 <= length prhs <= 4)%nat /\ nlhs <= 2)) as [[Hin Hout]|Hbad].
  2:{ destruct (mexFunction_rejected E nlhs prhs s Hbad) as [msg Hmsg].
      rewrite Hmsg. apply R_refl. }
  rewrite (mexFunction_accepted E _ _ _ Hin Hout).
  apply (keeps_bind_at no_lookup).
  { apply (keeps_bind no_lookup);
      [apply keeps_deref | intros; apply keeps_getDoubleFromMatlab]; exact _. }
  intros TDB1 s1 HTDB1.
  assert (s1 = s) as ->.
  { pose proof (read_unchanged E prhs 0 s) as Hs. now rewrite HTDB1 in Hs. }
  apply (keeps_bind_at no_lookup).
  { apply (keeps_bind no_lookup);
      [apply keeps_deref | intros; apply keeps_getDoubleFromMatlab]; exact _. }
  intros TDB2 s1 HTDB2.
  assert (s1 = s) as ->.
  { pose proof (read_unchanged E prhs 1 s) as Hs. now rewrite HTDB2 in Hs. }
  apply (keeps_bind_at no_lookup).
  { apply (keeps_delta_argument E no_lookup). }
  intros [iterateDeltaT deltaTTUT1] s1 Hdelta.
  rewrite (delta_argument_supplied_inv _ _ _ _ _ _ _ Hp Ha Hne Hdelta).
  apply (keeps_bind no_lookup).
  { apply (keeps_clock_location E no_lookup). }
  intros [[u v] elon]. apply (keeps_bind no_lookup).
  { apply (keeps_for_loop no_lookup). intros vars.
    apply keeps_iteration_supplied; exact _. }
  intros [[TT1 TT2] dt]. apply keeps_return_outputs; exact _.
Qed.

(** C2: when a non-empty [deltaTTUT1] argument is supplied, two runs on
    the same arguments and the same state that differ only in the
    behaviour of [getEOP] have the same outcome and the same final state,
    and none of the events of the run is a call made by
    [getDeltaTFromEOP] ([iauTttai], [iauTaiutc] or [getEOP]): the lookup is
    never invoked. *)
Theorem supplied_offset_ignores_getEOP g1 g2 nlhs prhs p a (s : state D) :
  prhs !! 2%nat = Some p -> heap s !! p = Some a -> mxIsEmpty a = false ->
  mexFunction (with_getEOP E g1) nlhs prhs s
  = mexFunction (with_getEOP E g2) nlhs prhs s
  /\ exists evs,
      trace (snd (mexFunction (with_getEOP E g1) nlhs prhs s))
      = trace s ++ evs
      /\ Forall (fun e => lookup_call e = false) evs.
Proof.
  intros Hp Ha Hne. split.
  - rewrite (getEOP_irrelevant g1 _ _ _ _ _ Hp Ha Hne).
    now rewrite (getEOP_irrelevant g2 _ _ _ _ _ Hp Ha Hne).
  - rewrite (getEOP_irrelevant g1 _ _ _ _ _ Hp Ha Hne).
    exact (supplied_no_lookup nlhs prhs p a s Hp Ha Hne).
Qed.

End Supplied.

(** The example call under two Earth-orientation tables. *)
Lemma supplied_offset_ignores_getEOP_witness :
  let E := Stub.collaborators 0 0 0 in
  let prhs := [0; 1; 2; 3]%nat in
  mexFunction (with_getEOP E Stub.eop_table) 2 prhs Stub.workspace
  = mexFunction (with_getEOP E Stub.eop_other_table) 2 prhs Stub.workspace
  /\ exists evs,
      trace (snd (mexFunction (with_getEOP E Stub.eop_table) 2 prhs
                    Stub.workspace))
      = trace Stub.workspace ++ evs
      /\ Forall (fun e => lookup_call e = false) evs.
Proof.
  exact (supplied_offset_ignores_getEOP (Stub.collaborators 0 0 0)
           Stub.eop_table Stub.eop_other_table 2 [0; 1; 2; 3]%nat 2%nat
           (Stub.scalar 64) Stub.workspace eq_refl eq_refl eq_refl).
Defined.

(** ** The example calls, run *)

(** With the offset supplied, the call returns after two calls of each
    routine of the loop and none of the lookup. *)
Example supplied_call_runs :
  let r := mexFunction (Stub.collaborators 0 0 0) 2 [0; 1; 2; 3]%nat
             Stub.workspace in
  fst r = Ok tt
  /\ map (fun f => calls f (trace (snd r)))
       [IauTtut1; IauDtdb; IauTdbtt; IauTttai; IauTaiutc; GetEOP]
     = [2; 2; 2; 0; 0; 0]%nat.
Proof. split; vm_compute; reflexivity. Qed.

(** Without it, each iteration is preceded by a lookup. *)
Example lookup_call_runs :
  let r := mexFunction (Stub.collaborators 0 0 0) 1 [0; 1]%nat
             Stub.workspace in
  fst r = Ok tt
  /\ map (fun f => calls f (trace (snd r)))
       [IauTtut1; IauDtdb; IauTdbtt; IauTttai; IauTaiutc; GetEOP]
     = [2; 2; 2; 2; 2; 2]%nat.
Proof. split; vm_compute; reflexivity. Qed.

(** An unacceptable date in the first iteration ends the call after one
    call of [iauTtut1], with no output. *)
Example unacceptable_date_runs :
  let r := mexFunction (Stub.collaborators (-1) 0 0) 2 [0; 1; 2]%nat
             Stub.workspace in
  fst r = Fatal "Unacceptable date provided."
  /\ map (fun f => calls f (trace (snd r)))
       [IauTtut1; IauDtdb; IauTdbtt; IauTttai; IauTaiutc; GetEOP]
     = [1; 0; 0; 0; 0; 0]%nat
  /\ plhs (snd r) = ∅.
Proof. repeat split; vm_compute; reflexivity. Qed.

(** * Further properties *)

(** ** Calls whose arguments are read *)

Section AfterReading.
Context {D : Type} `{Double D} (E : Externals D).

#[local] Existing Instances same_heap_frame same_heap_core same_heap_lookup
  same_heap_outputs same_plhs_frame same_plhs_core same_plhs_lookup
  same_plhs_heap unchanged_frame.

(** The rest of the call once lines 75-99 went through. *)
Lemma mexFunction_after_reading nlhs prhs TDB1 TDB2 iterateDeltaT deltaTTUT1
    (s : state D) :
  arguments_read E nlhs prhs s TDB1 TDB2 (iterateDeltaT, deltaTTUT1) ->
  mexFunction E nlhs prhs s =
  bind (clock_location E (Z.of_nat (length prhs)) prhs) (fun cyl =>
  let '(u, v, elon) := cyl in
  bind (for_loop 2 (iteration E iterateDeltaT TDB1 TDB2 elon u v)
          (TDB1, TDB2, deltaTTUT1)) (fun vars =>
  let '(TT1, TT2, _) := vars in
  return_outputs E nlhs TT1 TT2)) s.
Proof.
  intros (Hin & Hout & HTDB1 & HTDB2 & Hdelta).
  rewrite (mexFunction_accepted E _ _ _ Hin Hout).
  rewrite (bind_Ok _ _ _ _ _ HTDB1), (bind_Ok _ _ _ _ _ HTDB2).
  now rewrite (bind_Ok _ _ _ _ _ Hdelta).
Qed.

(** The run of lines 101-107 on a non-empty array that is not 3-by-1. *)
Lemma clock_location_misshapen nrhs prhs p a (s : state D) :
  nrhs > 3 -> prhs !! 3%nat = Some p -> heap s !! p = Some a ->
  mxIsEmpty a = false -> mxGetM a <> 3 \/ mxGetN a <> 1 ->
  clock_location E nrhs prhs s =
  (Fatal "The dimensionality of the clock location is incorrect.", s).
Proof.
  intros Hn Hp Ha Hne Hshape. unfold clock_location.
  assert (Hgt : (nrhs >? 3) = true) by (apply Z.gtb_lt; lia).
  rewrite Hgt.
  rewrite (bind_Ok _ _ s true s);
    [|rewrite (bind_Ok _ _ s a s (deref_eq _ _ _ _ _ Hp Ha));
      unfold ret; now rewrite Hne].
  rewrite (bind_Ok _ _ s a s (deref_eq _ _ _ _ _ Hp Ha)).
  assert (Hdims : negb (mxGetM a =? 3) || negb (mxGetN a =? 1) = true).
  { apply orb_true_iff.
    destruct Hshape as [HM | HN]; [left | right];
      apply negb_true_iff, Z.eqb_neq; assumption. }
  now rewrite Hdims.
Qed.

(** X1: a clock location that is not empty and not 3-by-1 ends the call
    with the error of line 105, whatever its class, and the call has then
    done nothing: the caller's arrays, the output slots and the trace are
    those of the start. *)
Theorem misshapen_clock_rejected nlhs prhs p a TDB1 TDB2 delta (s : state D) :
  arguments_read E nlhs prhs s TDB1 TDB2 delta ->
  prhs !! 3%nat = Some p -> heap s !! p = Some a ->
  mxIsEmpty a = false -> mxGetM a <> 3 \/ mxGetN a <> 1 ->
  mexFunction E nlhs prhs s =
  (Fatal "The dimensionality of the clock location is incorrect.", s).
Proof.
  intros Hread Hp Ha Hne Hshape. destruct delta as [iterateDeltaT deltaTTUT1].
  rewrite (mexFunction_after_reading _ _ _ _ _ _ _ Hread).
  assert (Hn : Z.of_nat (length prhs) > 3).
  { apply lookup_lt_Some in Hp. lia. }
  now rewrite (bind_Fatal _ _ _ _ _
                 (clock_location_misshapen _ _ _ _ _ Hn Hp Ha Hne Hshape)).
Qed.

(** The heap after a call without clock location. *)
Lemma heap_without_clock nlhs prhs (s : state D) :
  clock_location E (Z.of_nat (length prhs)) prhs s
  = (Ok (of_int 0, of_int 0, of_int 0), s) ->
  heap (snd (mexFunction E nlhs prhs s)) = heap s.
Proof.
  intros Hclock.
  destruct (decide ((2 <= length prhs <= 4)%nat /\ nlhs <= 2)) as [[Hin Hout]|Hbad].
  2:{ destruct (mexFunction_rejected E nlhs prhs s Hbad) as [msg Hmsg].
      now rewrite Hmsg. }
  rewrite (mexFunction_accepted E _ _ _ Hin Hout).
  apply (keeps_bind_at same_heap).
  { apply (keeps_bind same_heap);
      [apply keeps_deref | intros; apply keeps_getDoubleFromMatlab]; exact _. }
  intros TDB1 s1 HTDB1.
  assert (s1 = s) as ->.
  { pose proof (read_unchanged E prhs 0 s) as Hs. now rewrite HTDB1 in Hs. }
  apply (keeps_bind_at same_heap).
  { apply (keeps_bind same_heap);
      [apply keeps_deref | intros; apply keeps_getDoubleFromMatlab]; exact _. }
  intros TDB2 s1 HTDB2.
  assert (s1 = s) as ->.
  { pose proof (read_unchanged E prhs 1 s) as Hs. now rewrite HTDB2 in Hs. }
  apply (keeps_bind_at same_heap).
  { apply (keeps_delta_argument E same_heap). }
  intros [iterateDeltaT deltaTTUT1] s1 Hdelta.
  assert (s1 = s) as ->.
  { pose proof (delta_argument_unchanged E (Z.of_nat (length prhs)) prhs s) as Hs.
    now rewrite Hdelta in Hs. }
  rewrite (bind_Ok _ _ _ _ _ Hclock). cbv beta iota.
  apply loop_and_outputs_same_heap.
Qed.

(** X2: a call without clock location (at most three arguments, or an
    empty fourth one) writes to none of the caller's arrays, however it
    ends. *)
Theorem no_clock_no_write nlhs prhs (s : state D) :
  (length prhs <= 3)%nat
  \/ (exists p a, prhs !! 3%nat = Some p /\ heap s !! p = Some a
                  /\ mxIsEmpty a = true) ->
  heap (snd (mexFunction E nlhs prhs s)) = heap s.
Proof.
  intros [Hn | (p & a & Hp & Ha & Hempty)]; apply heap_without_clock.
  - apply clock_location_absent. lia.
  - now apply (clock_location_empty E _ _ p a).
Qed.

(** X3: a call writes no output slot other than [plhs[0]] and [plhs[1]],
    and it writes [plhs[1]] only when more than one output is requested. *)
Theorem other_output_slots_untouched nlhs prhs (i : nat) (s : state D) :
  (2 <= i)%nat \/ (i = 1%nat /\ nlhs <= 1) ->
  plhs (snd (mexFunction E nlhs prhs s)) !! i = plhs s !! i.
Proof.
  intros Hi.
  destruct (mexFunction_well_or_silent E nlhs prhs s) as [[[] Hok] | Hsilent];
    [|now rewrite Hsilent].
  destruct (mexFunction E nlhs prhs s) as [r s'] eqn:Hrun. cbn [fst snd] in *.
  subst r. apply mexFunction_Ok_inv in Hrun
    as (TDB1 & TDB2 & iterateDeltaT & deltaTTUT1 & u & v & elon & s0 & TT1
        & TT2 & dt & s2 & _ & _ & _ & _ & _ & Hclock & Hloop & ->).
  assert (Hs0 : plhs s0 = plhs s).
  { pose proof (keeps_clock_location E same_plhs (Z.of_nat (length prhs))
                  prhs s) as Hk.
    now rewrite Hclock in Hk. }
  assert (Hs2 : plhs s2 = plhs s0).
  { pose proof (keeps_for_loop same_plhs 2
                  (iteration E iterateDeltaT TDB1 TDB2 elon u v)
                  (fun a => keeps_iteration E same_plhs _ _ _ _ _ _ a)
                  (TDB1, TDB2, deltaTTUT1) s0) as Hk.
    now rewrite Hloop in Hk. }
  unfold with_outputs. cbn [plhs]. rewrite Hs2, Hs0.
  destruct Hi as [Hi | [-> Hnlhs]].
  - destruct (nlhs >? 1); rewrite ?lookup_insert_ne by lia; reflexivity.
  - assert (Hgt : (nlhs >? 1) = false) by (rewrite Z.gtb_ltb; apply Z.ltb_ge; lia).
    rewrite Hgt. now rewrite lookup_insert_ne by lia.
Qed.

End AfterReading.

(** The example call with the clock location given as a row. *)
Lemma misshapen_clock_rejected_witness :
  mexFunction (Stub.collaborators 0 0 0) 2 [0; 1; 2; 6]%nat Example.workspace
  = (Fatal "The dimensionality of the clock location is incorrect.",
     Example.workspace).
Proof.
  apply (misshapen_clock_rejected (Stub.collaborators 0 0 0) 2
           [0; 1; 2; 6]%nat 6%nat (Example.row 6378137 0 0)
           2451545%R 0%R (false, 64%R)).
  - repeat split; try reflexivity; cbn; lia.
  - reflexivity.
  - reflexivity.
  - reflexivity.
  - left. cbn. lia.
Defined.

(** The example call with three arguments, and with an empty fourth one. *)
Lemma no_clock_no_write_witness :
  heap (snd (mexFunction (Stub.collaborators 0 0 0) 2 [0; 1; 2]%nat
               Stub.workspace)) = heap Stub.workspace
  /\ heap (snd (mexFunction (Stub.collaborators 0 0 0) 2 [0; 1; 2; 4]%nat
                  Stub.workspace)) = heap Stub.workspace.
Proof.
  split.
  - apply no_clock_no_write. left. cbn. lia.
  - apply no_clock_no_write. right. exists 4%nat, Stub.empty.
    repeat split; reflexivity.
Defined.

(** The example call with one requested output leaves [plhs[1]] alone. *)
Lemma other_output_slots_untouched_witness :
  plhs (snd (mexFunction (Stub.collaborators 0 0 0) 1 [0; 1; 2]%nat
               Stub.workspace)) !! 1%nat = plhs Stub.workspace !! 1%nat.
Proof.
  apply other_output_slots_untouched. right. split; [reflexivity | lia].
Defined.

(** ** Empty arguments *)

Section EmptyArguments.
Context {D : Type} `{Double D} (E : Externals D).

(** X4: passing an empty array as [deltaTTUT1] is the same as leaving the
    argument out: the two calls have the same outcome and the same final
    state. *)
Theorem empty_offset_as_omitted nlhs p0 p1 p2 a (s : state D) :
  heap s !! p2 = Some a -> mxIsEmpty a = true ->
  mexFunction E nlhs [p0; p1; p2] s = mexFunction E nlhs [p0; p1] s.
Proof.
  intros Ha Hempty. unfold mexFunction.
  change (Z.of_nat (length [p0; p1; p2])) with 3.
  change (Z.of_nat (length [p0; p1])) with 2.
  change ((3 <? 2) || (3 >? 4)) with false.
  change ((2 <? 2) || (2 >? 4)) with false. cbv iota.
  destruct (nlhs >? 2); [reflexivity|].
  change (deref [p0; p1; p2] 0) with (@deref D [p0; p1] 0).
  change (deref [p0; p1; p2] 1) with (@deref D [p0; p1] 1).
  apply bind_ext. intros TDB1 s1 HTDB1.
  assert (s1 = s) as ->.
  { pose proof (read_unchanged E [p0; p1] 0 s) as Hs. now rewrite HTDB1 in Hs. }
  apply bind_ext. intros TDB2 s1 HTDB2.
  assert (s1 = s) as ->.
  { pose proof (read_unchanged E [p0; p1] 1 s) as Hs. now rewrite HTDB2 in Hs. }
  rewrite (bind_Ok _ _ _ _ _
             (delta_argument_empty E 3 [p0; p1; p2] p2 a s eq_refl Ha Hempty)).
  rewrite (bind_Ok _ _ _ _ _
             (delta_argument_absent E 2 [p0; p1] s ltac:(lia))).
  cbv beta iota.
  rewrite (bind_Ok _ _ _ _ _
             (clock_location_absent E 3 [p0; p1; p2] s ltac:(lia))).
  rewrite (bind_Ok _ _ _ _ _
             (clock_location_absent E 2 [p0; p1] s ltac:(lia))).
  reflexivity.
Qed.

(** X5: passing an empty array as [clockLoc] is the same as leaving the
    argument out. *)
Theorem empty_clock_as_omitted nlhs p0 p1 p2 p3 a (s : state D) :
  heap s !! p3 = Some a -> mxIsEmpty a = true ->
  mexFunction E nlhs [p0; p1; p2; p3] s = mexFunction E nlhs [p0; p1; p2] s.
Proof.
  intros Ha Hempty. unfold mexFunction.
  change (Z.of_nat (length [p0; p1; p2; p3])) with 4.
  change (Z.of_nat (length [p0; p1; p2])) with 3.
  change ((4 <? 2) || (4 >? 4)) with false.
  change ((3 <? 2) || (3 >? 4)) with false. cbv iota.
  destruct (nlhs >? 2); [reflexivity|].
  change (deref [p0; p1; p2; p3] 0) with (@deref D [p0; p1; p2] 0).
  change (deref [p0; p1; p2; p3] 1) with (@deref D [p0; p1; p2] 1).
  change (delta_argument E 4 [p0; p1; p2; p3])
    with (delta_argument E 3 [p0; p1; p2]).
  apply bind_ext. intros TDB1 s1 HTDB1.
  assert (s1 = s) as ->.
  { pose proof (read_unchanged E [p0; p1; p2] 0 s) as Hs.
    now rewrite HTDB1 in Hs. }
  apply bind_ext. intros TDB2 s1 HTDB2.
  assert (s1 = s) as ->.
  { pose proof (read_unchanged E [p0; p1; p2] 1 s) as Hs.
    now rewrite HTDB2 in Hs. }
  apply bind_ext. intros [iterateDeltaT deltaTTUT1] s1 Hdelta.
  assert (s1 = s) as ->.
  { pose proof (delta_argument_unchanged E 3 [p0; p1; p2] s) as Hs.
    now rewrite Hdelta in Hs. }
  rewrite (bind_Ok _ _ _ _ _
             (clock_location_empty E 4 [p0; p1; p2; p3] p3 a s eq_refl Ha
                Hempty)).
  rewrite (bind_Ok _ _ _ _ _
             (clock_location_absent E 3 [p0; p1; p2] s ltac:(lia))).
  reflexivity.
Qed.

End EmptyArguments.

Lemma empty_offset_as_omitted_witness :
  mexFunction (Stub.collaborators 0 0 0) 2 [0; 1; 4]%nat Stub.workspace
  = mexFunction (Stub.collaborators 0 0 0) 2 [0; 1]%nat Stub.workspace.
Proof.
  apply (empty_offset_as_omitted (Stub.collaborators 0 0 0) 2 0%nat 1%nat
           4%nat Stub.empty); reflexivity.
Defined.

Lemma empty_clock_as_omitted_witness :
  mexFunction (Stub.collaborators 0 0 0) 2 [0; 1; 2; 4]%nat Stub.workspace
  = mexFunction (Stub.collaborators 0 0 0) 2 [0; 1; 2]%nat Stub.workspace.
Proof.
  apply (empty_clock_as_omitted (Stub.collaborators 0 0 0) 2 0%nat 1%nat
           2%nat 4%nat Stub.empty); reflexivity.
Defined.

(** ** More on the Earth-orientation lookup *)

Section LookupFootprint.
Context {D : Type} `{Double D} (E : Externals D).

#[local] Existing Instances same_heap_frame same_heap_core same_heap_lookup
  same_plhs_frame same_plhs_core same_plhs_lookup unchanged_frame.

Lemma conversion_events_from_lookup TT1 TT2 tai1 tai2 :
  Forall (@from_lookup D) (conversion_events TT1 TT2 tai1 tai2).
Proof.
  unfold conversion_events.
  constructor; [now left|]. constructor; [now left | constructor].
Qed.

Lemma lookup_events_from_lookup TT1 TT2 tai1 tai2 status utc1 utc2 :
  Forall (@from_lookup D) (lookup_events TT1 TT2 tai1 tai2 status utc1 utc2).
Proof.
  unfold lookup_events. apply Forall_app. split.
  - apply conversion_events_from_lookup.
  - destruct (status =? 1); cbn [app].
    + constructor; [now right|]. constructor; [now left | constructor].
    + constructor; [now left | constructor].
Qed.

(** X6: [getDeltaTFromEOP] touches neither the caller's arrays nor the
    output slots, and whatever its outcome the only events it adds are
    calls of [iauTttai], [iauTaiutc] and [getEOP] and the warning of line
    184. *)
Theorem getDeltaTFromEOP_footprint TT1 TT2 (s : state D) :
  let s' := snd (getDeltaTFromEOP E TT1 TT2 s) in
  heap s' = heap s /\ plhs s' = plhs s
  /\ exists evs, trace s' = trace s ++ evs /\ Forall from_lookup evs.
Proof.
  intros s'. split; [|split].
  - apply (keeps_getDeltaTFromEOP E same_heap).
  - apply (keeps_getDeltaTFromEOP E same_plhs).
  - unfold s'.
    destruct (iauTttai E TT1 TT2) as [status1 [tai1 tai2]] eqn:Htai.
    destruct (Z.eq_dec status1 0) as [-> | Hst].
    + destruct (iauTaiutc E tai1 tai2) as [status2 [utc1 utc2]] eqn:Hutc.
      rewrite (getDeltaTFromEOP_run E _ _ _ _ _ _ _ _ Htai Hutc).
      destruct (status2 =? -1).
      * eexists. split; [reflexivity | apply conversion_events_from_lookup].
      * cbv zeta.
        exists (lookup_events TT1 TT2 tai1 tai2 status2 utc1 utc2).
        split; [|apply lookup_events_from_lookup].
        destruct (getEOP E _ _) as [msg|[[[r0 r1] r2] r3]]; [reflexivity|].
        destruct (scalarOf E r3); reflexivity.
    + rewrite (getDeltaTFromEOP_no_TAI E _ _ _ _ _ _ Htai Hst).
      eexists. split; [reflexivity|]. constructor; [now left | constructor].
Qed.

Lemma for_loop_ext {A} n (body1 body2 : A -> M D A) :
  (forall a s, body1 a s = body2 a s) ->
  forall a s, for_loop n body1 a s = for_loop n body2 a s.
Proof.
  intros Hbody. induction n as [|n IH]; intros a s; cbn [for_loop]; [reflexivity|].
  unfold bind. rewrite Hbody.
  destruct (body2 a s) as [[a'|msg|] s1]; [apply IH | reflexivity | reflexivity].
Qed.

Lemma bind_ext2 {A B} (m1 m2 : M D A) (k1 k2 : A -> M D B) s :
  m1 s = m2 s -> (forall a s1, k1 a s1 = k2 a s1) ->
  bind m1 k1 s = bind m2 k2 s.
Proof.
  intros Hm Hk. unfold bind. rewrite Hm.
  destruct (m2 s) as [[a|msg|] s1]; [apply Hk | reflexivity | reflexivity].
Qed.

Section FourthOutput.
Variables g1 g2 : mxArray D -> mxArray D ->
                  string + (mxArray D * mxArray D * mxArray D * mxArray D).
Hypothesis same_fourth :
  forall a b, fourth_output (g1 a b) = fourth_output (g2 a b).

Lemma getDeltaTFromEOP_fourth TT1 TT2 (s : state D) :
  getDeltaTFromEOP (with_getEOP E g1) TT1 TT2 s
  = getDeltaTFromEOP (with_getEOP E g2) TT1 TT2 s.
Proof.
  unfold getDeltaTFromEOP. cbn [with_getEOP iauTttai iauTaiutc].
  apply bind_ext2; [reflexivity | intros _ s1].
  destruct (iauTttai E TT1 TT2) as [status1 [tai1 tai2]].
  apply bind_ext2; [reflexivity | intros _ s2].
  apply bind_ext2; [reflexivity | intros _ s3].
  destruct (iauTaiutc E tai1 tai2) as [status2 [utc1 utc2]].
  apply bind_ext2; [reflexivity | intros _ s4].
  unfold mexCallMATLAB_getEOP. cbn [with_getEOP getEOP doubleMat2Matlab].
  rewrite !bind_bind, !bind_emit.
  specialize (same_fourth (doubleMat2Matlab E [utc1] 1 1)
                          (doubleMat2Matlab E [utc2] 1 1)).
  destruct (g1 _ _) as [msg1|[[[a0 a1] a2] a3]],
           (g2 _ _) as [msg2|[[[b0 b1] b2] b3]];
    cbn [fourth_output] in same_fourth;
    try discriminate; injection same_fourth as <-; reflexivity.
Qed.

Lemma iteration_fourth iterateDeltaT TDB1 TDB2 elon u v vars (s : state D) :
  iteration (with_getEOP E g1) iterateDeltaT TDB1 TDB2 elon u v vars s
  = iteration (with_getEOP E g2) iterateDeltaT TDB1 TDB2 elon u v vars s.
Proof.
  destruct vars as [[TT1 TT2] deltaTTUT1]. unfold iteration.
  apply bind_ext2; [|reflexivity].
  destruct iterateDeltaT; [apply getDeltaTFromEOP_fourth | reflexivity].
Qed.

Lemma mexFunction_fourth nlhs prhs (s : state D) :
  mexFunction (with_getEOP E g1) nlhs prhs s
  = mexFunction (with_getEOP E g2) nlhs prhs s.
Proof.
  unfold mexFunction.
  destruct (_ || _); [reflexivity|].
  destruct (nlhs >? 2); [reflexivity|].
  apply bind_ext2; [reflexivity | intros TDB1 s1].
  apply bind_ext2; [reflexivity | intros TDB2 s2].
  apply bind_ext2; [reflexivity | intros [iterateDeltaT deltaTTUT1] s3].
  apply bind_ext2; [reflexivity | intros [[u v] elon] s4].
  apply bind_ext2; [|reflexivity].
  apply for_loop_ext. intros vars s5. apply iteration_fourth.
Qed.

End FourthOutput.

(** X7: of what [getEOP] returns, a call uses only the fourth output (and
    the error, if it raises one): under two Earth-orientation sources that
    agree on these, every call has the same outcome and final state. *)
Theorem only_fourth_output_of_getEOP g1 g2 nlhs prhs (s : state D) :
  (forall a b, fourth_output (g1 a b) = fourth_output (g2 a b)) ->
  mexFunction (with_getEOP E g1) nlhs prhs s
  = mexFunction (with_getEOP E g2) nlhs prhs s.
Proof. intros Hg. now apply mexFunction_fourth. Qed.

End LookupFootprint.

Lemma only_fourth_output_of_getEOP_witness :
  mexFunction (with_getEOP (Stub.collaborators 0 0 0) Stub.eop_table) 2
    [0; 1]%nat Stub.workspace
  = mexFunction (with_getEOP (Stub.collaborators 0 0 0)
                   Example.eop_same_fourth) 2 [0; 1]%nat Stub.workspace.
Proof.
  apply only_fourth_output_of_getEOP. intros a b. reflexivity.
Defined.

(** ** The outcome of a call from the results of the collaborators *)

Section Outcome.
Context {D : Type} `{Double D} (E : Externals D).

Lemma getDeltaTFromEOP_looked_up TT1 TT2 deltaT (s : state D) :
  looked_up E TT1 TT2 = Some deltaT ->
  getDeltaTFromEOP E TT1 TT2 s
  = (Ok deltaT, add_events s (lookup_events_at E TT1 TT2)).
Proof.
  unfold looked_up, lookup_events_at.
  destruct (iauTttai E TT1 TT2) as [status1 [tai1 tai2]] eqn:Htai.
  destruct (iauTaiutc E tai1 tai2) as [status2 [utc1 utc2]] eqn:Hutc.
  destruct (status1 =? 0) eqn:H1; [|discriminate].
  apply Z.eqb_eq in H1. subst status1.
  rewrite (getDeltaTFromEOP_run E _ _ _ _ _ _ _ _ Htai Hutc).
  destruct (status2 =? -1); [discriminate|]. cbn [andb negb]. cbv zeta.
  destruct (getEOP E _ _) as [msg|[[[r0 r1] r2] r3]]; [discriminate|].
  destruct (scalarOf E r3); [discriminate|].
  intros Heq. now injection Heq as <-.
Qed.

(** The run of the loop body when its offset can be obtained. *)
Lemma iteration_result iterateDeltaT TDB1 TDB2 elon u v TT1 TT2 dt0 dt
    (s : state D) :
  offset_of E iterateDeltaT dt0 TT1 TT2 = Some dt ->
  iteration E iterateDeltaT TDB1 TDB2 elon u v (TT1, TT2, dt0) s =
  let before := offset_events E iterateDeltaT TT1 TT2 in
  if fst (iauTtut1 E TT1 TT2 dt) =? -1
  then (Fatal "Unacceptable date provided.",
        add_events s (before ++ [Call IauTtut1 [TT1; TT2; dt]]))
  else
    let s' := add_events s
                (before ++ iteration_events E TDB1 TDB2 elon u v TT1 TT2 dt) in
    let '(retVal, (TT1', TT2')) := refined E TDB1 TDB2 elon u v TT1 TT2 dt in
    if retVal =? 0 then (Ok (TT1', TT2', dt), s')
    else (Fatal intermediate_error, s').
Proof.
  intros Hoff.
  assert (Hstep :
    (if iterateDeltaT then getDeltaTFromEOP E TT1 TT2 else ret dt0) s
    = (Ok dt, add_events s (offset_events E iterateDeltaT TT1 TT2))).
  { unfold offset_of, offset_events in *. destruct iterateDeltaT.
    - now apply getDeltaTFromEOP_looked_up.
    - injection Hoff as <-. now rewrite add_events_nil. }
  rewrite (iteration_run E _ _ _ _ _ _ _ _ _ _ _ _ Hstep).
  cbv zeta. now rewrite !add_events_app.
Qed.

(** X8: when the arguments are read, the clock location is accepted, both
    offsets can be obtained, and [iauTtut1] and [iauTdbtt] report no error
    in either iteration, the call returns, its events are those of the two
    iterations, and its outputs hold the estimate of the second. *)
Theorem call_returns nlhs prhs TDB1 TDB2 iterateDeltaT deltaTTUT1 u v elon
    dt1 TTa1 TTa2 dt2 TTb1 TTb2 (s s0 : state D) :
  arguments_read E nlhs prhs s TDB1 TDB2 (iterateDeltaT, deltaTTUT1) ->
  clock_location E (Z.of_nat (length prhs)) prhs s = (Ok (u, v, elon), s0) ->
  offset_of E iterateDeltaT deltaTTUT1 TDB1 TDB2 = Some dt1 ->
  fst (iauTtut1 E TDB1 TDB2 dt1) <> -1 ->
  refined E TDB1 TDB2 elon u v TDB1 TDB2 dt1 = (0, (TTa1, TTa2)) ->
  offset_of E iterateDeltaT dt1 TTa1 TTa2 = Some dt2 ->
  fst (iauTtut1 E TTa1 TTa2 dt2) <> -1 ->
  refined E TDB1 TDB2 elon u v TTa1 TTa2 dt2 = (0, (TTb1, TTb2)) ->
  mexFunction E nlhs prhs s =
  (Ok tt,
   with_outputs E nlhs TTb1 TTb2
     (add_events s0
        (run_events E iterateDeltaT TDB1 TDB2 elon u v dt1 TTa1 TTa2 dt2))).
Proof.
  intros Hread Hclock Hoff1 Hst1 Href1 Hoff2 Hst2 Href2.
  rewrite (mexFunction_after_reading E _ _ _ _ _ _ _ Hread).
  rewrite (bind_Ok _ _ _ _ _ Hclock). cbv beta iota.
  cbn [for_loop]. rewrite !bind_bind.
  erewrite bind_Ok.
  2:{ rewrite (iteration_result _ _ _ _ _ _ _ _ _ _ _ Hoff1). cbv zeta.
      apply Z.eqb_neq in Hst1. rewrite Hst1, Href1. reflexivity. }
  rewrite bind_bind. erewrite bind_Ok.
  2:{ rewrite (iteration_result _ _ _ _ _ _ _ _ _ _ _ Hoff2). cbv zeta.
      apply Z.eqb_neq in Hst2. rewrite Hst2, Href2. reflexivity. }
  rewrite bind_ret_l, return_outputs_run, add_events_app.
  unfold run_events. now rewrite <- !app_assoc.
Qed.

(** A lookup that fails ends with the message of its failure, and a lookup
    either fails or gives an offset. *)
Lemma getDeltaTFromEOP_failure TT1 TT2 msg (s : state D) :
  lookup_failure E TT1 TT2 = Some msg ->
  exists st, getDeltaTFromEOP E TT1 TT2 s = (Fatal msg, st)
             /\ plhs st = plhs s.
Proof.
  unfold lookup_failure.
  destruct (iauTttai E TT1 TT2) as [status1 [tai1 tai2]] eqn:Htai.
  destruct (iauTaiutc E tai1 tai2) as [status2 [utc1 utc2]] eqn:Hutc.
  destruct (status1 =? 0) eqn:H1; cbn [negb].
  - apply Z.eqb_eq in H1. subst status1.
    rewrite (getDeltaTFromEOP_run E _ _ _ _ _ _ _ _ Htai Hutc).
    destruct (status2 =? -1).
    + intros Heq. injection Heq as <-. eexists. split; reflexivity.
    + cbv zeta.
      destruct (getEOP E _ _) as [msg'|[[[r0 r1] r2] r3]].
      * intros Heq. injection Heq as <-. eexists. split; reflexivity.
      * destruct (scalarOf E r3) as [msg'|d]; [|discriminate].
        intros Heq. injection Heq as <-. eexists. split; reflexivity.
  - apply Z.eqb_neq in H1.
    rewrite (getDeltaTFromEOP_no_TAI E _ _ _ _ _ _ Htai H1).
    intros Heq. injection Heq as <-. eexists. split; reflexivity.
Qed.

Lemma lookup_failure_None TT1 TT2 :
  lookup_failure E TT1 TT2 = None <-> exists d, looked_up E TT1 TT2 = Some d.
Proof.
  unfold lookup_failure, looked_up.
  destruct (iauTttai E TT1 TT2) as [status1 [tai1 tai2]].
  destruct (iauTaiutc E tai1 tai2) as [status2 [utc1 utc2]].
  destruct (status1 =? 0); cbn [negb andb];
    [|split; [discriminate | intros [d Hd]; discriminate]].
  destruct (status2 =? -1); cbn [negb];
    [split; [discriminate | intros [d Hd]; discriminate]|].
  destruct (getEOP E _ _) as [msg|[[[r0 r1] r2] r3]];
    [split; [discriminate | intros [d Hd]; discriminate]|].
  destruct (scalarOf E r3) as [msg|d];
    [split; [discriminate | intros [d Hd]; discriminate]|].
  split; [eauto | reflexivity].
Qed.

(** An iteration that fails, at whichever of its lines, ends what follows it
    with the message of the failure, and writes no output slot. *)
Lemma iteration_aborts {B} iterateDeltaT TDB1 TDB2 elon u v TT1 TT2 dt0 msg
    (k : D * D * D -> M D B) (st : state D) :
  offset_failure E iterateDeltaT TT1 TT2 = Some msg
  \/ (exists dt, offset_of E iterateDeltaT dt0 TT1 TT2 = Some dt
                 /\ iteration_failure E TDB1 TDB2 elon u v TT1 TT2 dt
                    = Some msg) ->
  exists st', plhs st' = plhs st
    /\ bind (iteration E iterateDeltaT TDB1 TDB2 elon u v (TT1, TT2, dt0)) k st
       = (Fatal msg, st').
Proof.
  intros [Hlookup | (dt & Hoff & Hfail)].
  - unfold offset_failure in Hlookup.
    destruct iterateDeltaT; [|discriminate].
    destruct (getDeltaTFromEOP_failure TT1 TT2 msg st Hlookup)
      as (st' & Hrun & Hplhs).
    exists st'. split; [exact Hplhs|].
    apply bind_Fatal. unfold iteration. apply bind_Fatal. exact Hrun.
  - unfold iteration_failure in Hfail.
    pose proof (iteration_result iterateDeltaT TDB1 TDB2 elon u v TT1 TT2 dt0
                  dt st Hoff) as Hit.
    cbv zeta in Hit.
    destruct (fst (iauTtut1 E TT1 TT2 dt) =? -1).
    + injection Hfail as <-. eexists.
      split; [|apply bind_Fatal; exact Hit]. reflexivity.
    + destruct (refined E TDB1 TDB2 elon u v TT1 TT2 dt)
        as [retVal [TT1' TT2']].
      cbn [fst] in Hfail. destruct (retVal =? 0); [discriminate|].
      injection Hfail as <-. eexists.
      split; [|apply bind_Fatal; exact Hit]. reflexivity.
Qed.

(** X9: when the arguments are read and the clock location is accepted, a
    failure inside the loop ends the call with the message of that failure
    and with no output slot written.  The failures of an iteration are
    that of obtaining its offset at line 128 ([offset_failure]: the lookup
    cannot convert the date, is refused the date, [getEOP] raises an error,
    or its fourth output cannot be read) and, once it has its offset, those
    of lines 135 and 153 ([iteration_failure]: [iauTtut1] or [iauTdbtt]
    reports an error).  This holds for the first iteration, and for the
    second after a first that succeeded: the estimate of the first
    iteration is then not returned.  An iteration has no other failure:
    when obtaining its offset does not fail, it has an offset. *)
Theorem loop_failure_aborts_call nlhs prhs TDB1 TDB2 iterateDeltaT
    deltaTTUT1 u v elon (s s0 : state D) :
  arguments_read E nlhs prhs s TDB1 TDB2 (iterateDeltaT, deltaTTUT1) ->
  clock_location E (Z.of_nat (length prhs)) prhs s = (Ok (u, v, elon), s0) ->
  let r := mexFunction E nlhs prhs s in
  let aborts msg := fst r = Fatal msg /\ plhs (snd r) = plhs s0 in
  (forall msg,
      offset_failure E iterateDeltaT TDB1 TDB2 = Some msg -> aborts msg)
  /\ (forall dt1 msg,
      offset_of E iterateDeltaT deltaTTUT1 TDB1 TDB2 = Some dt1 ->
      iteration_failure E TDB1 TDB2 elon u v TDB1 TDB2 dt1 = Some msg ->
      aborts msg)
  /\ (forall dt1 TTa1 TTa2,
      offset_of E iterateDeltaT deltaTTUT1 TDB1 TDB2 = Some dt1 ->
      fst (iauTtut1 E TDB1 TDB2 dt1) <> -1 ->
      refined E TDB1 TDB2 elon u v TDB1 TDB2 dt1 = (0, (TTa1, TTa2)) ->
      (forall msg,
          offset_failure E iterateDeltaT TTa1 TTa2 = Some msg -> aborts msg)
      /\ (forall dt2 msg,
          offset_of E iterateDeltaT dt1 TTa1 TTa2 = Some dt2 ->
          iteration_failure E TDB1 TDB2 elon u v TTa1 TTa2 dt2 = Some msg ->
          aborts msg))
  /\ (forall dt0 TT1 TT2,
      offset_failure E iterateDeltaT TT1 TT2 = None <->
      exists dt, offset_of E iterateDeltaT dt0 TT1 TT2 = Some dt).
Proof.
  intros Hread Hclock r aborts. subst aborts r. cbv beta.
  rewrite (mexFunction_after_reading E _ _ _ _ _ _ _ Hread).
  rewrite (bind_Ok _ _ _ _ _ Hclock). cbv beta iota.
  cbn [for_loop]. rewrite !bind_bind.
  assert (Hfirst : forall msg,
    offset_failure E iterateDeltaT TDB1 TDB2 = Some msg
    \/ (exists dt, offset_of E iterateDeltaT deltaTTUT1 TDB1 TDB2 = Some dt
                   /\ iteration_failure E TDB1 TDB2 elon u v TDB1 TDB2 dt
                      = Some msg) ->
    forall B (k : D * D * D -> M D B),
      fst (bind (iteration E iterateDeltaT TDB1 TDB2 elon u v
                   (TDB1, TDB2, deltaTTUT1)) k s0) = Fatal msg
      /\ plhs (snd (bind (iteration E iterateDeltaT TDB1 TDB2 elon u v
                            (TDB1, TDB2, deltaTTUT1)) k s0)) = plhs s0).
  { intros msg Hfail B k.
    destruct (iteration_aborts iterateDeltaT TDB1 TDB2 elon u v TDB1 TDB2
                deltaTTUT1 msg k s0 Hfail) as (st' & Hplhs & Hrun).
    rewrite Hrun. split; [reflexivity | exact Hplhs]. }
  split; [|split; [|split]].
  - intros msg Hfail. apply Hfirst. now left.
  - intros dt1 msg Hoff1 Hfail. apply Hfirst. right. eauto.
  - intros dt1 TTa1 TTa2 Hoff1 Hst1 Href1.
    erewrite bind_Ok.
    2:{ rewrite (iteration_result _ _ _ _ _ _ _ _ _ _ _ Hoff1). cbv zeta.
        apply Z.eqb_neq in Hst1. rewrite Hst1, Href1. reflexivity. }
    rewrite bind_bind.
    assert (Hsecond : forall msg,
      offset_failure E iterateDeltaT TTa1 TTa2 = Some msg
      \/ (exists dt, offset_of E iterateDeltaT dt1 TTa1 TTa2 = Some dt
                     /\ iteration_failure E TDB1 TDB2 elon u v TTa1 TTa2 dt
                        = Some msg) ->
      forall B (k : D * D * D -> M D B) evs,
        fst (bind (iteration E iterateDeltaT TDB1 TDB2 elon u v
                     (TTa1, TTa2, dt1)) k (add_events s0 evs)) = Fatal msg
        /\ plhs (snd (bind (iteration E iterateDeltaT TDB1 TDB2 elon u v
                              (TTa1, TTa2, dt1)) k (add_events s0 evs)))
           = plhs s0).
    { intros msg Hfail B k evs.
      destruct (iteration_aborts iterateDeltaT TDB1 TDB2 elon u v TTa1 TTa2
                  dt1 msg k (add_events s0 evs) Hfail)
        as (st' & Hplhs & Hrun).
      rewrite Hrun. split; [reflexivity | exact Hplhs]. }
    split.
    + intros msg Hfail. apply Hsecond. now left.
    + intros dt2 msg Hoff2 Hfail. apply Hsecond. right. eauto.
  - intros dt0 TT1 TT2. unfold offset_failure, offset_of.
    destruct iterateDeltaT; [apply lookup_failure_None|].
    split; [eauto | reflexivity].
Qed.

End Outcome.

(** The example call with three arguments returns. *)
Lemma call_returns_witness :
  exists s',
    mexFunction (Stub.collaborators 0 0 0) 2 [0; 1; 2]%nat Stub.workspace
    = (Ok tt, s').
Proof.
  eexists.
  apply (call_returns (Stub.collaborators 0 0 0) 2 [0; 1; 2]%nat
           2451545%R 0%R false 64%R 0%R 0%R 0%R
           64%R 2451545%R (0 - 0 / 86400)%R
           64%R 2451545%R (0 - 0 / 86400)%R Stub.workspace Stub.workspace).
  - repeat split; try reflexivity; cbn; lia.
  - reflexivity.
  - reflexivity.
  - cbn. discriminate.
  - reflexivity.
  - reflexivity.
  - cbn. discriminate.
  - reflexivity.
Defined.

(** A lookup that is refused the date in the first iteration of a call
    without offset, an unacceptable date in the first iteration, and a
    refined estimate that is rejected in the second. *)
Lemma loop_failure_aborts_call_witness :
  fst (mexFunction (Stub.collaborators 0 0 (-1)) 2 [0; 1]%nat
         Stub.workspace) = Fatal "Unacceptable date entered"
  /\ fst (mexFunction (Stub.collaborators (-1) 0 0) 2 [0; 1; 2]%nat
            Stub.workspace) = Fatal "Unacceptable date provided."
  /\ fst (mexFunction Example.rejecting_refined 2 [0; 1; 2]%nat
            Stub.workspace) = Fatal "Unacceptable date provided.".
Proof.
  split; [|split].
  - destruct (loop_failure_aborts_call (Stub.collaborators 0 0 (-1)) 2
                [0; 1]%nat 2451545%R 0%R true 0%R 0%R 0%R 0%R
                Stub.workspace Stub.workspace) as [Hlookup _].
    + repeat split; try reflexivity; cbn; lia.
    + reflexivity.
    + apply Hlookup. reflexivity.
  - destruct (loop_failure_aborts_call (Stub.collaborators (-1) 0 0) 2
                [0; 1; 2]%nat 2451545%R 0%R false 64%R 0%R 0%R 0%R
                Stub.workspace Stub.workspace) as [_ [Hfirst _]].
    + repeat split; try reflexivity; cbn; lia.
    + reflexivity.
    + apply (Hfirst 64%R); reflexivity.
  - destruct (loop_failure_aborts_call Example.rejecting_refined 2
                [0; 1; 2]%nat 2451545%R 0%R false 64%R 0%R 0%R 0%R
                Stub.workspace Stub.workspace) as [_ [_ [Hsecond _]]].
    + repeat split; try reflexivity; cbn; lia.
    + reflexivity.
    + destruct (Hsecond 64%R 2451545%R (0 - 1 / 86400)%R) as [_ Hfail].
      * reflexivity.
      * cbn. destruct (Rlt_dec 0 0); [lra | discriminate].
      * reflexivity.
      * apply (Hfail 64%R).
        -- reflexivity.
        -- unfold iteration_failure. cbn.
           destruct (Rlt_dec (0 - 1 / 86400) 0); [reflexivity | lra].
Defined.

(** ** The number of lookups *)

Section Lookups.
Context {D : Type} `{Double D} (E : Externals D).

#[local] Instance same_trace_frame : Frame (@same_trace D).
Proof. split; unfold same_trace; congruence. Qed.

#[local] Instance same_trace_heap : HeapWrites (@same_trace D).
Proof. intros s h. reflexivity. Qed.

Lemma lookup_events_at_calls TT1 TT2 f :
  f = IauTttai \/ f = IauTaiutc \/ f = GetEOP ->
  calls f (lookup_events_at E TT1 TT2) = 1%nat.
Proof.
  unfold lookup_events_at, lookup_events, conversion_events.
  destruct (iauTttai E TT1 TT2) as [status1 [tai1 tai2]].
  destruct (iauTaiutc E tai1 tai2) as [status2 [utc1 utc2]].
  intros [-> | [-> | ->]]; destruct (status2 =? 1); reflexivity.
Qed.

Lemma iteration_events_no_lookup TDB1 TDB2 elon u v TT1 TT2 dt f :
  f = IauTttai \/ f = IauTaiutc \/ f = GetEOP ->
  calls f (iteration_events E TDB1 TDB2 elon u v TT1 TT2 dt) = 0%nat.
Proof.
  unfold iteration_events.
  destruct (iauTtut1 E TT1 TT2 dt) as [retVal [Jul1UT1 Jul2UT1]].
  intros [-> | [-> | ->]]; destruct (retVal =? 1); reflexivity.
Qed.

(** X10: a call without offset (two arguments, or an empty third one)
    that returns has made exactly two lookups, one before each iteration:
    [iauTttai], [iauTaiutc] and [getEOP] were each called twice. *)
Theorem two_lookups_without_offset nlhs prhs (s s' : state D) :
  mexFunction E nlhs prhs s = (Ok tt, s') ->
  length prhs = 2%nat
  \/ (exists p a, prhs !! 2%nat = Some p /\ heap s !! p = Some a
                  /\ mxIsEmpty a = true) ->
  exists evs,
    trace s' = trace s ++ evs
    /\ calls IauTttai evs = 2%nat
    /\ calls IauTaiutc evs = 2%nat
    /\ calls GetEOP evs = 2%nat.
Proof.
  intros Hrun Hnone.
  apply mexFunction_Ok_inv in Hrun
    as (TDB1 & TDB2 & iterateDeltaT & deltaTTUT1 & u & v & elon & s0 & TTb1
        & TTb2 & dt2 & s2 & _ & _ & _ & _ & Hdelta & Hclock & Hloop & ->).
  assert (iterateDeltaT = true) as ->.
  { destruct Hnone as [Hlen | (p & a & Hp & Ha & Hempty)].
    - rewrite delta_argument_absent in Hdelta by lia. now injection Hdelta.
    - rewrite (delta_argument_empty E _ _ p a s Hp Ha Hempty) in Hdelta.
      now injection Hdelta. }
  assert (Hs0 : trace s0 = trace s).
  { pose proof (keeps_clock_location E same_trace (Z.of_nat (length prhs))
                  prhs s) as Hk.
    now rewrite Hclock in Hk. }
  apply for_loop_2_Ok in Hloop as ([[TTa1 TTa2] dt1] & s1 & Hfirst & Hsecond).
  apply iteration_Ok_inv in Hfirst as (_ & _ & _ & ->).
  apply iteration_Ok_inv in Hsecond as (_ & _ & _ & ->).
  eexists. split.
  - unfold with_outputs, add_events. cbn [trace]. rewrite Hs0.
    rewrite <- app_assoc. reflexivity.
  - unfold offset_events.
    repeat split;
      rewrite !calls_app, !lookup_events_at_calls, !iteration_events_no_lookup;
      auto.
Qed.

End Lookups.

Lemma two_lookups_without_offset_witness :
  let r := mexFunction (Stub.collaborators 0 0 0) 2 [0; 1]%nat
             Stub.workspace in
  exists evs,
    trace (snd r) = trace Stub.workspace ++ evs
    /\ calls IauTttai evs = 2%nat
    /\ calls IauTaiutc evs = 2%nat
    /\ calls GetEOP evs = 2%nat.
Proof.
  intros r.
  assert (Hfst : fst r = Ok tt) by (vm_compute; reflexivity).
  apply (two_lookups_without_offset (Stub.collaborators 0 0 0) 2 [0; 1]%nat
           Stub.workspace (snd r)).
  - fold r. rewrite <- Hfst. now destruct r.
  - now left.
Defined.

(** ** The day fraction and the cylindrical coordinates, over the reals *)

Section ExactValues.
Local Open Scope R_scope.

Lemma UT1Frac_exact (Jul1UT1 Jul2UT1 : R) :
  UT1Frac Jul1UT1 Jul2UT1 = (Jul1UT1 + Jul2UT1) - Rfloor (Jul1UT1 + Jul2UT1).
Proof.
  unfold UT1Frac. cbn [floor dadd dsub R_Double].
  rewrite (Rfloor_sum Jul1UT1 Jul2UT1). lra.
Qed.

(** X11: over exact arithmetic, the day fraction of lines 145-146 depends
    only on the full date, and not on whole days: two split dates whose
    sums differ by an integer have the same fraction.  In particular it
    does not matter how the date is split. *)
Theorem UT1Frac_of_full_date (a b c d : R) (n : Z) :
  a + b = c + d + IZR n -> UT1Frac a b = UT1Frac c d.
Proof.
  intros Hsum. rewrite !UT1Frac_exact, Hsum.
  unfold Rfloor. rewrite Zfloor_addz, plus_IZR. lra.
Qed.

Lemma sqrt_scaled (x t : R) :
  R_sqrt.sqrt (x * x + (x * t) * (x * t)) = Rabs x * R_sqrt.sqrt (1 + t²).
Proof.
  replace (x * x + x * t * (x * t)) with (x² * (1 + t²)) by (unfold Rsqr; ring).
  rewrite sqrt_mult; [|apply Rle_0_sqr | pose proof (Rle_0_sqr t); lra].
  now rewrite sqrt_Rsqr_abs.
Qed.

Lemma sqrt_1_sqr_pos (t : R) : 0 < R_sqrt.sqrt (1 + t²).
Proof. apply sqrt_lt_R0. pose proof (Rle_0_sqr t). lra. Qed.

(** [sqrt (x*x + y*y)] and [atan2 y x] are polar coordinates of [(x, y)]. *)
Lemma polar_of_atan2 (x y : R) :
  let r := R_sqrt.sqrt (x * x + y * y) in
  let theta := Ratan2 y x in
  0 <= r /\ - PI < theta <= PI /\ r * cos theta = x /\ r * sin theta = y.
Proof.
  intros r theta. unfold r, theta, Ratan2.
  pose proof PI_RGT_0 as HPI.
  split; [apply sqrt_pos|].
  destruct (Rlt_dec 0 x) as [Hx | Hx].
  - set (t := y / x). pose proof (atan_bound t) as Hb.
    pose proof (sqrt_1_sqr_pos t) as Hs.
    assert (Hy : y = x * t) by (unfold t; field; lra).
    clearbody t; subst y. rewrite sqrt_scaled, Rabs_pos_eq by lra.
    rewrite cos_atan, sin_atan.
    repeat split; try lra; field; lra.
  - destruct (Rlt_dec x 0) as [Hx' | Hx'].
    + set (t := y / x). pose proof (atan_bound t) as Hb.
      pose proof (sqrt_1_sqr_pos t) as Hs.
      assert (Hy : y = x * t) by (unfold t; field; lra).
      destruct (Rle_dec 0 y) as [Hy0 | Hy0].
      * assert (Ht : atan t <= 0).
        { assert (Hle : t <= 0).
          { unfold t, Rdiv. replace (y * / x) with (- (y * / - x)).
            - assert (0 <= y * / - x); [|lra].
              apply Rmult_le_pos; [lra|]. left. apply Rinv_0_lt_compat. lra.
            - field. lra. }
          destruct Hle as [Hlt | Heq].
          - pose proof (atan_increasing _ _ Hlt). rewrite atan_0 in *. lra.
          - rewrite Heq, atan_0. lra. }
        clearbody t; subst y. rewrite sqrt_scaled, Rabs_left by lra.
        rewrite neg_cos, neg_sin, cos_atan, sin_atan.
        repeat split; try lra; field; lra.
      * assert (Ht : 0 < atan t).
        { assert (Hlt : 0 < t).
          { unfold t, Rdiv. replace (y * / x) with ((- y) * / - x) by (field; lra).
            apply Rmult_lt_0_compat; [lra|]. apply Rinv_0_lt_compat. lra. }
          pose proof (atan_increasing _ _ Hlt). rewrite atan_0 in *. lra. }
        clearbody t; subst y. rewrite sqrt_scaled, Rabs_left by lra.
        rewrite cos_minus, sin_minus, cos_PI, sin_PI, cos_atan, sin_atan.
        repeat split; try lra; field; lra.
    + assert (x = 0) as -> by lra.
      replace (0 * 0 + y * y) with (y²) by (unfold Rsqr; ring).
      rewrite sqrt_Rsqr_abs.
      destruct (Rlt_dec 0 y) as [Hy | Hy].
      * rewrite Rabs_pos_eq, cos_PI2, sin_PI2 by lra. repeat split; lra.
      * destruct (Rlt_dec y 0) as [Hy' | Hy'].
        -- replace (- PI / 2) with (- (PI / 2)) by field.
           rewrite Rabs_left, cos_neg, sin_neg, cos_PI2, sin_PI2 by lra.
           repeat split; lra.
        -- assert (y = 0) as -> by lra.
           rewrite Rabs_R0. repeat split; lra.
Qed.

(** X12: over exact arithmetic, with [atan2] the angle function of
    [math.h], the triple that lines 110-116 derive from a supplied clock
    location is a cylindrical representation of the location in
    kilometres: the radius is not negative, the longitude lies in
    (-PI, PI], radius and longitude give back the first two components,
    and the height is the third. *)
Theorem clock_cylindrical_round_trip (E : Externals R) nrhs prhs xyzClock a
    x y z (s : state R) :
  (nrhs > 3)%Z ->
  prhs !! 3%nat = Some xyzClock ->
  heap s !! xyzClock = Some a ->
  mxGetM a = 3%Z -> mxGetN a = 1%Z ->
  realDoubleArrayError E a = None ->
  mxGetData a = [x; y; z] ->
  exists u v elon,
    fst (clock_location E nrhs prhs s) = Ok (u, v, elon)
    /\ 0 <= u /\ - PI < elon <= PI
    /\ u * cos elon = x / 1000 /\ u * sin elon = y / 1000
    /\ v = z / 1000.
Proof.
  intros Hn Hp Ha HM HN Hreal Hdata.
  rewrite (clock_location_supplied E _ _ _ _ _ _ _ _ Hn Hp Ha HM HN Hreal Hdata).
  cbn [fst]. do 3 eexists. split; [reflexivity|].
  destruct (polar_of_atan2 (x / 1000) (y / 1000)) as (Hu & Helon & Hcos & Hsin).
  repeat split; try assumption; apply Helon.
Qed.

End ExactValues.

Lemma UT1Frac_of_full_date_witness :
  UT1Frac 2451545%R (1 / 4)%R = UT1Frac (1 / 2)%R (- (1 / 4))%R.
Proof.
  apply (UT1Frac_of_full_date _ _ _ _ 2451545). lra.
Defined.

Lemma clock_cylindrical_round_trip_witness :
  exists u v elon : R,
    fst (clock_location (Stub.collaborators 0 0 0) 4 [0; 1; 2; 3]%nat
           Stub.workspace) = Ok (u, v, elon)
    /\ (0 <= u /\ - PI < elon <= PI
        /\ u * cos elon = 6378137 / 1000 /\ u * sin elon = 0 / 1000
        /\ v = 0 / 1000)%R.
Proof.
  apply (clock_cylindrical_round_trip (Stub.collaborators 0 0 0) 4
           [0; 1; 2; 3]%nat 3%nat (Stub.column 6378137 0 0));
    first [reflexivity | lia].
Defined.

(** ** Calling twice with the same clock location *)

Section Repeated.
Context {D : Type} `{Double D} (E : Externals D).

(** X13: the division in place accumulates.  When a valid call with a
    clock location is made a second time on the state the first call
    left, with the same arguments, the second call takes the location
    from the already divided array: its cylindrical coordinates are those
    of the original components divided by 1000 twice, and it leaves in the
    caller's array the original components divided by 1000 twice. *)
Theorem second_call_divides_again nlhs prhs xyzClock a x y z (s : state D) :
  valid_call4 E nlhs prhs s xyzClock a ->
  mxGetData a = [x; y; z] ->
  (forall i p, (i < 3)%nat -> prhs !! i = Some p -> p <> xyzClock) ->
  realDoubleArrayError E (with_data a (kilometres x y z)) = None ->
  let s1 := snd (mexFunction E nlhs prhs s) in
  let x'' := (x / of_int 1000 / of_int 1000)%D in
  let y'' := (y / of_int 1000 / of_int 1000)%D in
  let z'' := (z / of_int 1000 / of_int 1000)%D in
  fst (clock_location E (Z.of_nat (length prhs)) prhs s1)
  = Ok (sqrt (x'' * x'' + y'' * y'')%D, z'', atan2 y'' x'')
  /\ heap (snd (mexFunction E nlhs prhs s1))
     = <[xyzClock := with_data a [x''; y''; z'']]> (heap s).
Proof.
  intros Hvalid Hdata Hdistinct Hreal s1 x'' y'' z''.
  pose proof (heap_after_call4 E _ _ _ _ _ _ _ _ Hvalid Hdata) as Hs1.
  fold s1 in Hs1.
  set (a1 := with_data a (kilometres x y z)) in *.
  assert (Hclock1 : heap s1 !! xyzClock = Some a1).
  { rewrite Hs1. apply lookup_insert_eq. }
  assert (Hother : forall i p, (i < 3)%nat -> prhs !! i = Some p ->
                     heap s1 !! p = heap s !! p).
  { intros i p Hi Hp. rewrite Hs1. apply lookup_insert_ne.
    intros Heq. now apply (Hdistinct i p Hi Hp). }
  destruct Hvalid as [Hnlhs Hprhs (q0 & a0 & TDB1 & Hq0 & Ha0 & H0)
                        (q1 & a1' & TDB2 & Hq1 & Ha1 & H1)
                        (q2 & a2 & Hq2 & Ha2 & H2) Ha HM HN _].
  assert (Hvalid1 : valid_call4 E nlhs prhs s1 xyzClock a1).
  { split; try assumption.
    - exists q0, a0, TDB1. repeat split; try assumption.
      rewrite (Hother 0%nat q0); [assumption | lia | assumption].
    - exists q1, a1', TDB2. repeat split; try assumption.
      rewrite (Hother 1%nat q1); [assumption | lia | assumption].
    - exists q2, a2. repeat split; try assumption.
      rewrite (Hother 2%nat q2); [assumption | lia | assumption]. }
  split.
  - destruct Hprhs as (p0 & p1 & p2 & ->).
    rewrite (clock_location_supplied E 4 [p0; p1; p2; xyzClock] xyzClock a1
               (x / of_int 1000)%D (y / of_int 1000)%D (z / of_int 1000)%D s1);
      first [assumption | reflexivity | lia].
  - rewrite (heap_after_call4 E nlhs prhs xyzClock a1
               (x / of_int 1000)%D (y / of_int 1000)%D (z / of_int 1000)%D s1
               Hvalid1 eq_refl).
    rewrite Hs1, insert_insert_eq. reflexivity.
Qed.

End Repeated.

Lemma second_call_divides_again_witness :
  let E := Stub.collaborators 0 0 0 in
  let s1 := snd (mexFunction E 2 [0; 1; 2; 3]%nat Stub.workspace) in
  heap (snd (mexFunction E 2 [0; 1; 2; 3]%nat s1))
  = <[3%nat := with_data (Stub.column 6378137 0 0)
                 [(6378137 / 1000 / 1000)%R; (0 / 1000 / 1000)%R;
                  (0 / 1000 / 1000)%R]]>
      (heap Stub.workspace).
Proof.
  refine (proj2 (second_call_divides_again (Stub.collaborators 0 0 0) 2
                   [0; 1; 2; 3]%nat 3%nat (Stub.column 6378137 0 0)
                   6378137%R 0%R 0%R Stub.workspace _ _ _ _)).
  - now apply stub_valid_call4.
  - reflexivity.
  - intros i p Hi Hp.
    destruct i as [|[|[|i]]]; cbn in Hp; try lia; injection Hp as <-; lia.
  - reflexivity.
Defined.

(** ** Arguments that fail validation *)

Section Validation.
Context {D : Type} `{Double D} (E : Externals D).

Lemma read_fails prhs i p a msg (s : state D) :
  prhs !! i = Some p -> heap s !! p = Some a -> scalarOf E a = inl msg ->
  bind (deref prhs i) (fun a => getDoubleFromMatlab E a) s = (Fatal msg, s).
Proof.
  intros Hp Ha Hmsg.
  rewrite (bind_Ok _ _ s a s (deref_eq _ _ _ _ _ Hp Ha)).
  unfold getDoubleFromMatlab. now rewrite Hmsg.
Qed.

(** X14: the three scalar arguments are validated in order, and the first
    one that [getDoubleFromMatlab] rejects ends the call with the message
    of the rejection, in the state of the start: the first part of the
    date, then the second, then a non-empty offset. *)
Theorem unreadable_argument_rejected nlhs prhs p0 p1 a0 a1 (s : state D) :
  (2 <= length prhs <= 4)%nat -> nlhs <= 2 ->
  prhs !! 0%nat = Some p0 -> heap s !! p0 = Some a0 ->
  prhs !! 1%nat = Some p1 -> heap s !! p1 = Some a1 ->
  let r := mexFunction E nlhs prhs s in
  (forall msg, scalarOf E a0 = inl msg -> r = (Fatal msg, s))
  /\ (forall TDB1 msg,
      scalarOf E a0 = inr TDB1 -> scalarOf E a1 = inl msg ->
      r = (Fatal msg, s))
  /\ (forall TDB1 TDB2 p2 a2 msg,
      scalarOf E a0 = inr TDB1 -> scalarOf E a1 = inr TDB2 ->
      prhs !! 2%nat = Some p2 -> heap s !! p2 = Some a2 ->
      mxIsEmpty a2 = false -> scalarOf E a2 = inl msg ->
      r = (Fatal msg, s)).
Proof.
  intros Hin Hout Hp0 Ha0 Hp1 Ha1 r. unfold r.
  rewrite (mexFunction_accepted E _ _ _ Hin Hout).
  split; [|split].
  - intros msg H0.
    now rewrite (bind_Fatal _ _ _ _ _ (read_fails _ _ _ _ _ _ Hp0 Ha0 H0)).
  - intros TDB1 msg H0 H1.
    rewrite (bind_Ok _ _ _ _ _ (read_scalar E _ _ _ _ _ _ Hp0 Ha0 H0)).
    now rewrite (bind_Fatal _ _ _ _ _ (read_fails _ _ _ _ _ _ Hp1 Ha1 H1)).
  - intros TDB1 TDB2 p2 a2 msg H0 H1 Hp2 Ha2 Hne H2.
    rewrite (bind_Ok _ _ _ _ _ (read_scalar E _ _ _ _ _ _ Hp0 Ha0 H0)).
    rewrite (bind_Ok _ _ _ _ _ (read_scalar E _ _ _ _ _ _ Hp1 Ha1 H1)).
    erewrite bind_Fatal; [reflexivity|].
    unfold delta_argument.
    assert (Hgt : (Z.of_nat (length prhs) >? 2) = true).
    { apply Z.gtb_lt. apply lookup_lt_Some in Hp2. lia. }
    rewrite Hgt.
    rewrite (bind_Ok _ _ s true s);
      [|rewrite (bind_Ok _ _ s a2 s (deref_eq _ _ _ _ _ Hp2 Ha2));
        unfold ret; now rewrite Hne].
    rewrite (bind_Ok _ _ s a2 s (deref_eq _ _ _ _ _ Hp2 Ha2)).
    unfold getDoubleFromMatlab. now rewrite H2.
Qed.

(** X15: a 3-by-1 clock location that [checkRealDoubleArray] rejects ends
    the call with the message of the rejection before line 112 is
    reached: its components are not divided, and the state is that of the
    start. *)
Theorem unreal_clock_rejected nlhs prhs p a msg TDB1 TDB2 delta (s : state D) :
  arguments_read E nlhs prhs s TDB1 TDB2 delta ->
  prhs !! 3%nat = Some p -> heap s !! p = Some a ->
  mxGetM a = 3 -> mxGetN a = 1 ->
  realDoubleArrayError E a = Some msg ->
  mexFunction E nlhs prhs s = (Fatal msg, s).
Proof.
  intros Hread Hp Ha HM HN Hreal. destruct delta as [iterateDeltaT deltaTTUT1].
  rewrite (mexFunction_after_reading E _ _ _ _ _ _ _ Hread).
  erewrite bind_Fatal; [reflexivity|].
  unfold clock_location.
  assert (Hgt : (Z.of_nat (length prhs) >? 3) = true).
  { apply Z.gtb_lt. apply lookup_lt_Some in Hp. lia. }
  assert (Hne : mxIsEmpty a = false).
  { unfold mxIsEmpty. now rewrite HM, HN. }
  rewrite Hgt.
  rewrite (bind_Ok _ _ s true s);
    [|rewrite (bind_Ok _ _ s a s (deref_eq _ _ _ _ _ Hp Ha));
      unfold ret; now rewrite Hne].
  rewrite (bind_Ok _ _ s a s (deref_eq _ _ _ _ _ Hp Ha)).
  rewrite HM, HN. cbn [Z.eqb Pos.eqb negb orb].
  rewrite bind_ret_l. unfold checkRealDoubleArray. now rewrite Hreal.
Qed.

(** X16: when the date conversions of the lookup succeed and [getEOP]
    returns, a fourth output that [getDoubleFromMatlab] rejects ends the
    lookup with the message of the rejection, after the call of
    [getEOP]. *)
Theorem unreadable_offset_from_getEOP TT1 TT2 tai1 tai2 status utc1 utc2
    r0 r1 r2 r3 msg (s : state D) :
  iauTttai E TT1 TT2 = (0, (tai1, tai2)) ->
  iauTaiutc E tai1 tai2 = (status, (utc1, utc2)) -> status <> -1 ->
  getEOP E (doubleMat2Matlab E [utc1] 1 1) (doubleMat2Matlab E [utc2] 1 1)
  = inr (r0, r1, r2, r3) ->
  scalarOf E r3 = inl msg ->
  getDeltaTFromEOP E TT1 TT2 s =
  (Fatal msg,
   add_events s (lookup_events TT1 TT2 tai1 tai2 status utc1 utc2)).
Proof.
  intros Htai Hutc Hst Heop Hmsg.
  rewrite (getDeltaTFromEOP_run E _ _ _ _ _ _ _ _ Htai Hutc).
  apply Z.eqb_neq in Hst. rewrite Hst. cbv zeta. now rewrite Heop, Hmsg.
Qed.

End Validation.

(** A column vector passed as first, as second and as third argument. *)
Lemma unreadable_argument_rejected_witness :
  let E := Stub.collaborators 0 0 0 in
  let s := Stub.workspace in
  mexFunction E 2 [3; 1]%nat s = (Fatal "Input is not scalar", s)
  /\ mexFunction E 2 [0; 3]%nat s = (Fatal "Input is not scalar", s)
  /\ mexFunction E 2 [0; 1; 3]%nat s = (Fatal "Input is not scalar", s).
Proof.
  intros E s. split; [|split].
  - destruct (unreadable_argument_rejected E 2 [3; 1]%nat 3%nat 1%nat
                (Stub.column 6378137 0 0) (Stub.scalar 0) s
                ltac:(cbn; lia) ltac:(lia) eq_refl eq_refl eq_refl eq_refl)
      as [Hfirst _].
    now apply Hfirst.
  - destruct (unreadable_argument_rejected E 2 [0; 3]%nat 0%nat 3%nat
                (Stub.scalar 2451545) (Stub.column 6378137 0 0) s
                ltac:(cbn; lia) ltac:(lia) eq_refl eq_refl eq_refl eq_refl)
      as [_ [Hsecond _]].
    now apply (Hsecond 2451545%R).
  - destruct (unreadable_argument_rejected E 2 [0; 1; 3]%nat 0%nat 1%nat
                (Stub.scalar 2451545) (Stub.scalar 0) s
                ltac:(cbn; lia) ltac:(lia) eq_refl eq_refl eq_refl eq_refl)
      as [_ [_ Hthird]].
    now apply (Hthird 2451545%R 0%R 3%nat (Stub.column 6378137 0 0)).
Defined.

(** A clock location of class single. *)
Lemma unreal_clock_rejected_witness :
  mexFunction (Stub.collaborators 0 0 0) 2 [0; 1; 2; 7]%nat Example.workspace
  = (Fatal "Array is not of type double", Example.workspace).
Proof.
  apply (unreal_clock_rejected (Stub.collaborators 0 0 0) 2
           [0; 1; 2; 7]%nat 7%nat (Example.single_column 6378137 0 0)
           "Array is not of type double" 2451545%R 0%R (false, 64%R));
    try reflexivity.
  repeat split; try reflexivity; cbn; lia.
Defined.

(** A lookup in a table whose fourth output is a vector. *)
Lemma unreadable_offset_from_getEOP_witness :
  getDeltaTFromEOP
    (with_getEOP (Stub.collaborators 0 0 0) Example.eop_vector_offset)
    2451545%R 0%R Stub.workspace
  = (Fatal "Input is not scalar",
     add_events Stub.workspace
       (lookup_events 2451545%R 0%R 2451545%R (0 - 32184 / 86400000)%R 0
          2451545%R (0 - 32184 / 86400000 - 37 / 86400)%R)).
Proof.
  apply (unreadable_offset_from_getEOP
           (with_getEOP (Stub.collaborators 0 0 0) Example.eop_vector_offset)
           _ _ _ _ _ _ _ (Stub.column 0 0 0) (Stub.column 0 0 0)
           (Stub.scalar 0) (Stub.column 69 69 69));
    try reflexivity.
  discriminate.
Defined.
